(** * Two Cent Stories: the submission handlers of [server/handler.py]

    A shallow embedding of the handlers (listing, creation, verification and
    deletion of debt stories) together with the properties of their
    specification.  Python objects are modelled as follows:

    - [str] is [string]; the characters are ASCII, which is what e-mail
      addresses, tokens, identifiers and query strings are made of;
    - a JSON scalar ([None], a string, an integer) is a [val], a document or
      any other flat [dict] is a [gmap string val];
    - a call either returns or raises: [exn + A], with the exception class;
    - the Document Store, the mail service, the clock and the random source
      are threaded explicitly: the store and the outbox form the [world], the
      readings of the clock, the two random tokens and the id the store
      assigns to a new document come with each call in an [env]. *)

From stdpp Require Import gmap strings list fin_maps pretty sorting.
From Stdlib Require Import ZArith Ascii.

Open Scope Z_scope.

(** ** Python strings *)

Module PyStr.

(** [c in s] *)
Fixpoint has_char (c : ascii) (s : string) : bool :=
  match s with
  | EmptyString => false
  | String a s' => if decide (a = c) then true else has_char c s'
  end.

Definition lower_ascii (a : ascii) : ascii :=
  let n := nat_of_ascii a in
  if ((65 <=? n)%nat && (n <=? 90)%nat)%bool then ascii_of_nat (n + 32) else a.

(** [s.lower()] *)
Fixpoint lower (s : string) : string :=
  match s with
  | EmptyString => EmptyString
  | String a s' => String (lower_ascii a) (lower s')
  end.

(** [s.replace(c, "")] for a one-character [c] *)
Fixpoint remove (c : ascii) (s : string) : string :=
  match s with
  | EmptyString => EmptyString
  | String a s' => if decide (a = c) then remove c s' else String a (remove c s')
  end.

(** [s.split(c)] for a one-character separator: never empty, one more
    element than there are separators in [s]. *)
Fixpoint split (c : ascii) (s : string) : list string :=
  match s with
  | EmptyString => [EmptyString]
  | String a s' =>
      if decide (a = c) then EmptyString :: split c s'
      else match split c s' with
           | p :: ps => String a p :: ps
           | [] => [String a EmptyString]
           end
  end.

(** [s.split(c)[0]] *)
Definition first_part (c : ascii) (s : string) : string :=
  match split c s with
  | p :: _ => p
  | [] => EmptyString
  end.

(** Whitespace that [int()] strips from an ASCII string: tab, line feed,
    vertical tab, form feed, carriage return and space. *)
Definition is_space (a : ascii) : bool :=
  let n := nat_of_ascii a in
  ((9 <=? n)%nat && (n <=? 13)%nat || (n =? 32)%nat)%bool.

Fixpoint all_space (s : string) : bool :=
  match s with
  | EmptyString => true
  | String a s' => is_space a && all_space s'
  end.

Fixpoint lstrip (s : string) : string :=
  match s with
  | EmptyString => EmptyString
  | String a s' => if is_space a then lstrip s' else s
  end.

Definition digit (a : ascii) : option Z :=
  let n := nat_of_ascii a in
  if ((48 <=? n)%nat && (n <=? 57)%nat)%bool then Some (Z.of_nat (n - 48)) else None.

(** The digits of a decimal literal: at least one digit, single underscores
    allowed between digits, trailing whitespace allowed.  [seen] tells
    whether the previous character was a digit. *)
Fixpoint digits (acc : Z) (seen : bool) (s : string) : option Z :=
  match s with
  | EmptyString => if seen then Some acc else None
  | String a s' =>
      match digit a with
      | Some d => digits (10 * acc + d) true s'
      | None =>
          if negb seen then None
          else if decide (a = "_"%char) then
            match s' with
            | String b _ =>
                match digit b with
                | Some _ => digits acc false s'
                | None => None
                end
            | EmptyString => None
            end
          else if all_space s then Some acc
          else None
      end
  end.

(** [int(s)] for a string [s] of ASCII characters, in base 10: surrounding
    whitespace, an optional sign, digits, of any number; [None] is
    [ValueError]. *)
Definition int (s : string) : option Z :=
  match lstrip s with
  | String "-" r => Z.opp <$> digits 0 false r
  | String "+" r => digits 0 false r
  | r => digits 0 false r
  end.

(** Every character of [s] satisfies [P]. *)
Fixpoint All (P : ascii -> Prop) (s : string) : Prop :=
  match s with
  | EmptyString => True
  | String a s' => P a /\ All P s'
  end.

End PyStr.

(** ** Exceptions and outcomes *)

Inductive exn : Type :=
  | KeyError | TypeError | AttributeError | IndexError | ValueError | NotFoundError.

#[global] Instance exn_eq_dec : EqDecision exn.
Proof. solve_decision. Defined.

(** ** E-mail normalisation *)

(** [clean_email]: [parts[1]] raises [IndexError] when the address has no
    ['@']. *)
Definition clean_email (email : string) : exn + string :=
  match PyStr.split "@" (PyStr.lower email) with
  | p0 :: p1 :: _ =>
      inr (PyStr.first_part "+" (PyStr.remove "." p0) +:+ "@" +:+ p1)
  | _ => inl IndexError
  end.

(** The normalised local part: dots removed, then cut at the first ['+']. *)
Definition norm_local (l : string) : string :=
  PyStr.first_part "+" (PyStr.remove "." l).

(** ** Values, documents and events *)

(** A JSON scalar as Python sees it. *)
Inductive val : Type :=
  | VNone
  | VStr (s : string)
  | VNum (n : Z).

#[global] Instance val_eq_dec : EqDecision val.
Proof. solve_decision. Defined.

(** Python truthiness: [None], [""] and [0] are false. *)
Definition truthy (v : val) : bool :=
  match v with
  | VNone => false
  | VStr s => negb (String.eqb s "")
  | VNum n => negb (n =? 0)
  end.

(** What an f-string prints for a value. *)
Definition fmt (v : val) : string :=
  match v with
  | VNone => "None"
  | VStr s => s
  | VNum n => pretty n
  end.

(** [event["queryStringParameters"]]: the key may be absent, or present with
    the value [None] (a request without a query string), or hold the
    parameters, which are strings. *)
Inductive qsp : Type :=
  | QAbsent
  | QNull
  | QParams (d : gmap string string).

(** The parts of the request event that the handlers read.  [pathParameters]
    is [None] for a null value.  [body] is the object that
    [json.loads(event["body"])] returns, [None] when there is no such object
    (the text is rejected); its values are scalars.  [domainName] and [stage]
    are the two fields of [requestContext]. *)
Record event : Type := {
  pathParameters : option (gmap string string);
  queryStringParameters : qsp;
  body : option (gmap string val);
  domainName : string;
  stage : string
}.

(** A message handed to the mail service. *)
Record mail : Type := {
  destination : val;
  subject : string;
  html : string
}.

(** The Document Store (index "submissions", id to [_source]) and the
    messages sent so far. *)
Record world : Type := {
  db : gmap string (gmap string val);
  outbox : list mail
}.

(** What one invocation draws from its environment: the reading of the
    clock, [datetime.now().isoformat()], and the reading at the next call
    when the clock is read a second time; the two results of
    [secrets.token_urlsafe(16)]; and the id that the Document Store assigns
    if a document is created. *)
Record env : Type := {
  now : string;
  now_next : string;
  token_verify : string;
  token_delete : string;
  new_id : string
}.

(** The environment after the clock has been read once: the next reading
    has become the current one. *)
Definition later (e : env) : env :=
  {| now := now_next e; now_next := now_next e;
     token_verify := token_verify e; token_delete := token_delete e;
     new_id := new_id e |}.

(** One hit of a search. *)
Record hit : Type := {
  hit_id : string;
  hit_source : gmap string val
}.

(** [results] of [ES_DB.search], as far as the listing reads it. *)
Record search_results : Type := {
  hits : list hit;
  total_value : Z;
  total_debt : val
}.

(** Response bodies: plain text, [json.dumps({"id": id})], or the listing
    [json.dumps([{"submissions": .., "count_submissions": .., "total_debt":
    ..}])], kept as the data that is serialised. *)
Inductive rbody : Type :=
  | Text (s : string)
  | JsonId (id : string)
  | JsonListing (submissions : list (gmap string val)) (count_submissions : Z)
      (debt : val).

(** A response: [CORS_HEADERS] are in every one, so only the [Location]
    header is recorded. *)
Record response : Type := {
  statusCode : Z;
  location : option string;
  rbody_of : rbody
}.

(** ** Handler monad: state of the world, and exceptions *)

Definition M (A : Type) : Type := world -> (exn + A) * world.

Definition ret {A} (a : A) : M A := fun w => (inr a, w).

Definition bind {A B} (m : M A) (k : A -> M B) : M B :=
  fun w =>
    match m w with
    | (inr a, w') => k a w'
    | (inl e, w') => (inl e, w')
    end.

(** A pure computation that may raise. *)
Definition lift {A} (r : exn + A) : M A := fun w => (r, w).

Notation "'do' x <- m ; k" := (bind m (fun x => k))
  (at level 10, x name, m at level 100, k at level 200).

(** [d[k]] *)
Definition item {V} (d : gmap string V) (k : string) : exn + V :=
  match d !! k with
  | Some v => inr v
  | None => inl KeyError
  end.

(** The receiver of a [str] method: anything else has no such attribute. *)
Definition as_str (v : val) : exn + string :=
  match v with
  | VStr s => inr s
  | _ => inl AttributeError
  end.

(** ** The Document Store *)

(** Modelled from the spec: the Document Store is an external collaborator
    (the [ES_DB] client), described in section 6 as a document-oriented store
    with get-by-id that fails distinctly when absent, count-by-query,
    index/create, partial-update and delete; writes made with the
    synchronous-visibility flag are seen by the next read. *)
Module ES.

Definition get (id : string) : M (gmap string val) :=
  fun w =>
    match db w !! id with
    | Some d => (inr d, w)
    | None => (inl NotFoundError, w)
    end.

(** Count of the documents whose [emailClean] is exactly [v]. *)
Definition count_emailClean (v : val) : M nat :=
  fun w =>
    (inr (size (filter (fun kv => kv.2 !! "emailClean" = Some v) (db w))), w).

(** Create a document under the id the store chooses. *)
Definition index (id : string) (d : gmap string val) : M string :=
  fun w => (inr id, {| db := <[id := d]> (db w); outbox := outbox w |}).

(** Merge the partial document into the stored one. *)
Definition update (id : string) (partial : gmap string val) : M unit :=
  fun w =>
    match db w !! id with
    | Some d =>
        (inr tt, {| db := <[id := partial ∪ d]> (db w); outbox := outbox w |})
    | None => (inl NotFoundError, w)
    end.

Definition delete (id : string) : M unit :=
  fun w =>
    match db w !! id with
    | Some _ => (inr tt, {| db := base.delete id (db w); outbox := outbox w |})
    | None => (inl NotFoundError, w)
    end.

End ES.

(** The mail service: the message is queued. *)
Definition ses_send_email (m : mail) : M unit :=
  fun w => (inr tt, {| db := db w; outbox := outbox w ++ [m] |}).

(** ** The handlers *)

Definition fields_to_output : list string :=
  ["firstName"; "debt"; "story"; "verifiedDate"].

(** [{k: v for k, v in source.items() if k in fields_to_output}] *)
Definition restrict_fields (source : gmap string val) : gmap string val :=
  filter (fun kv => kv.1 ∈ fields_to_output) source.

(** [get_api_url] *)
Definition get_api_url (ev : event) : string :=
  "https://" +:+ domainName ev +:+ "/" +:+ stage ev.

(** [s.endswith(c)] *)
Fixpoint ends_with (c : ascii) (s : string) : bool :=
  match s with
  | EmptyString => false
  | String a EmptyString => bool_decide (a = c)
  | String _ s' => ends_with c s'
  end.

(** [os.path.join(a, b)] for a relative [b]. *)
Definition path_join (a b : string) : string :=
  if (String.eqb a "" || ends_with "/" a)%bool then a +:+ b else a +:+ "/" +:+ b.

(** [create_submission_record]: the entries of the dict display are
    evaluated in order, so the first missing key or wrong type raises. *)
Definition create_submission_record (e : env) (submission : gmap string val)
  : exn + gmap string val :=
  match item submission "name" with inl x => inl x | inr name =>
  match as_str name with inl x => inl x | inr name_s =>
  match item submission "debt" with inl x => inl x | inr debt =>
  match item submission "story" with inl x => inl x | inr story =>
  match item submission "email" with inl x => inl x | inr email =>
  match as_str email with inl x => inl x | inr email_s =>
  match clean_email email_s with inl x => inl x | inr cleaned =>
    inr (<["name" := name]>
        (<["firstName" := VStr (PyStr.first_part " " name_s)]>
        (<["debt" := debt]>
        (<["story" := story]>
        (<["email" := email]>
        (<["emailClean" := VStr cleaned]>
        (<["createdDate" := VStr (now e)]>
        (<["tokenVerify" := VStr (PyStr.remove "-" (token_verify e))]>
        (<["tokenDelete" := VStr (PyStr.remove "-" (token_delete e))]> ∅)))))))))
  end end end end end end end.

(** [mark_verified]: [verifiedDate] is the reading of the clock at this
    call. *)
Definition mark_verified (e : env) (submission : gmap string val)
  : gmap string val :=
  <["verifiedDate" := VStr (now e)]> (<["tokenVerify" := VNone]> submission).

(** [send_email] *)
Definition send_email (submission_record : gmap string val)
    (submission_id api_url : string) : M unit :=
  do token_v <- lift (item submission_record "tokenVerify");
  let verify_url :=
    path_join api_url ("submissions/" +:+ submission_id +:+ "/verify")
    +:+ "?token=" +:+ fmt token_v in
  do token_d <- lift (item submission_record "tokenDelete");
  let delete_url :=
    path_join api_url ("submissions/" +:+ submission_id +:+ "/delete")
    +:+ "?token=" +:+ fmt token_d in
  let email_body :=
    "<body>"
    +:+ "<p>Thank you for providing your student debt story to Two Cent Stories! For security purposes, we'd like to verify your email before publishing your story on our website.</p>"
    +:+ "<p>Please verify your email to publish your story.</p>"
    +:+ "<br/>"
    +:+ "<br/>"
    +:+ "<a target='_blank' href='" +:+ verify_url +:+ "'>Verify Your Story</a>"
    +:+ "<br/>"
    +:+ "<br/>"
    +:+ "<a target='_blank' href='" +:+ delete_url +:+ "'>Delete Your Story</a>"
    +:+ "</body>" in
  do to <- lift (item submission_record "email");
  ses_send_email
    {| destination := to; subject := "Confirm Your Story"; html := email_body |}.

(** [json.loads(event["body"])] *)
Definition loads_body (ev : event) : exn + gmap string val :=
  match body ev with
  | Some submission => inr submission
  | None => inl ValueError
  end.

Definition respond (code : Z) (text : string) : response :=
  {| statusCode := code; location := None; rbody_of := Text text |}.

Definition redirect (code : Z) (url text : string) : response :=
  {| statusCode := code; location := Some url; rbody_of := Text text |}.

(** [post_submission] *)
Definition post_submission (e : env) (ev : event) : M response :=
  do submission <- lift (loads_body ev);
  do record <- lift (create_submission_record e submission);
  do email_clean <- lift (item record "emailClean");
  do existing_stories <- ES.count_emailClean email_clean;
  if negb (existing_stories =? 0)%nat then
    ret (respond 409
           "Your story has already been submitted. Please check your email :)")
  else
    do id <- ES.index (new_id e) record;
    do _ <- send_email record id (get_api_url ev);
    ret {| statusCode := 200; location := None; rbody_of := JsonId id |}.

(** [post_verified_submission]: [create_submission_record] reads the clock
    for [createdDate], [mark_verified] reads it again for [verifiedDate]. *)
Definition post_verified_submission (e : env) (ev : event) : M response :=
  do submission <- lift (loads_body ev);
  do record <- lift (create_submission_record e submission);
  let verified_record := mark_verified (later e) record in
  do id <- ES.index (new_id e) verified_record;
  ret {| statusCode := 200; location := None; rbody_of := JsonId id |}.

(** [event["pathParameters"]["submissionId"]] *)
Definition read_submission_id (ev : event) : exn + string :=
  match pathParameters ev with
  | Some params => item params "submissionId"
  | None => inl TypeError
  end.

(** [event.get("queryStringParameters", {}).get("token")]: the default is
    used only when the key is absent. *)
Definition read_token (ev : event) : exn + option string :=
  match queryStringParameters ev with
  | QAbsent => inr None
  | QNull => inl AttributeError
  | QParams params => inr (params !! "token")
  end.

(** [if not token: return missing], else go on with the token: [None] and
    [""] are both false. *)
Definition if_not {A} (token : option string) (missing : M A)
    (present : string -> M A) : M A :=
  match token with
  | Some t => if String.eqb t "" then missing else present t
  | None => missing
  end.

(** [try: ES_DB.get(..) except NotFoundError: ..] *)
Definition get_or {A} (id : string) (not_found : M A)
    (found : gmap string val -> M A) : M A :=
  fun w =>
    match ES.get id w with
    | (inr submission, w') => found submission w'
    | (inl NotFoundError, w') => not_found w'
    | (inl x, w') => (inl x, w')
    end.

Section Handlers.

(** [UI_HOST = os.environ["UI_HOST"]] *)
Variable UI_HOST : string.

(** [verify_submission] *)
Definition verify_submission (e : env) (ev : event) : M response :=
  do submission_id <- lift (read_submission_id ev);
  if String.eqb submission_id "" then ret (respond 400 "Submission id missing")
  else
    do token <- lift (read_token ev);
    if_not token (ret (respond 400 "Token missing")) (fun token =>
      get_or submission_id (ret (respond 404 "Story not found")) (fun submission =>
        do verify_token <- lift (item submission "tokenVerify");
        let redirect_url := UI_HOST +:+ "?verified=" +:+ submission_id in
        if negb (truthy verify_token) then
          ret (redirect 302 redirect_url
                 "Your story has already been verified! Thank you :)")
        else if bool_decide (VStr token ≠ verify_token) then
          ret (respond 403 ("Token: " +:+ token +:+ " did not match"))
        else
          do _ <- ES.update submission_id
                    (<["tokenVerify" := VNone]>
                       (<["verifiedDate" := VStr (now e)]> ∅));
          ret (redirect 302 redirect_url
                 "Your story has been verified! Thank you :)"))).

(** [delete_submission] *)
Definition delete_submission (ev : event) : M response :=
  do submission_id <- lift (read_submission_id ev);
  if String.eqb submission_id "" then ret (respond 400 "Submission id missing")
  else
    do token <- lift (read_token ev);
    if_not token (ret (respond 400 "Token missing")) (fun token =>
      get_or submission_id
        (ret (respond 404 "Story not found. Perhaps it has already been deleted!"))
        (fun submission =>
        do delete_token <- lift (item submission "tokenDelete");
        if negb (truthy delete_token) then
          ret (respond 200 "Your story has already been deleted! Thank you :)")
        else if bool_decide (VStr token ≠ delete_token) then
          ret (respond 403 ("Token: " +:+ token +:+ " did not match"))
        else
          do _ <- ES.delete submission_id;
          ret (respond 200 "Your story has been deleted!"))).

(** The search of the listing, [ES_DB.search] with the query of
    [get_submissions] (documents that have a [verifiedDate], newest first,
    projected to [fields_to_output], with the sum of [debt]): a function of
    the store, [from] and [size]. *)
Variable ES_search :
  gmap string (gmap string val) -> Z -> Z -> search_results.

(** [event.get("queryStringParameters") or {}] *)
Definition query_params (ev : event) : gmap string string :=
  match queryStringParameters ev with
  | QParams params => params
  | _ => ∅
  end.

(** [include]: [None] when the parameter is absent or empty (false),
    otherwise the first three ids. *)
Definition read_include (params : gmap string string) : option (list string) :=
  match params !! "include" with
  | Some s => if String.eqb s "" then None else Some (take 3 (PyStr.split "," s))
  | None => None
  end.

(** [int(query_params.get(key))] with [assert 0 < n < bound], and the
    [except] branch: [TypeError] for an absent parameter, [ValueError] for
    text that is not a number, [AssertionError] out of range. *)
Definition int_param (params : gmap string string) (key : string)
    (bound fallback : Z) : Z :=
  match params !! key with
  | None => fallback
  | Some s =>
      match PyStr.int s with
      | None => fallback
      | Some n => if ((0 <? n) && (n <? bound))%bool then n else fallback
      end
  end.

Definition read_limit (params : gmap string string) : Z :=
  int_param params "limit" 200 90.

Definition read_from (params : gmap string string) : Z :=
  int_param params "from" 9600 0.

(** The loop over [include]. *)
Fixpoint include_loop (include : list string)
    (existing_submission_ids : gset string)
    (submissions : list (gmap string val)) : M (list (gmap string val)) :=
  match include with
  | [] => ret submissions
  | submission_id :: rest =>
      if decide (submission_id ∈ existing_submission_ids)
      then include_loop rest existing_submission_ids submissions
      else
        get_or submission_id
          (include_loop rest existing_submission_ids submissions)
          (fun submission =>
             include_loop rest ({[submission_id]} ∪ existing_submission_ids)
               (restrict_fields submission :: submissions))
  end.

(** [get_submissions] *)
Definition get_submissions (ev : event) : M response :=
  let params := query_params ev in
  let include := read_include params in
  let limit := read_limit params in
  let from_ := read_from params in
  do results <- (fun w => (inr (ES_search (db w) from_ limit), w));
  let submissions := hit_source <$> hits results in
  do submissions <-
    match include with
    | Some ids =>
        include_loop ids (list_to_set (hit_id <$> hits results)) submissions
    | None => ret submissions
    end;
  ret {| statusCode := 200; location := None;
         rbody_of := JsonListing submissions (total_value results)
                       (total_debt results) |}.

End Handlers.

(** ** Vocabulary of the properties *)

(** The request carries the submission id and a token, neither of them
    missing in the sense of the handlers' tests [not submission_id] and
    [not token]. *)
Definition carries (ev : event) (id token : string) : Prop :=
  read_submission_id ev = inr id /\ id <> "" /\
  read_token ev = inr (Some token) /\ token <> "".

(** The document after a successful verification. *)
Definition verified_doc (e : env) (submission : gmap string val)
  : gmap string val :=
  <["tokenVerify" := VNone]> (<["verifiedDate" := VStr (now e)]> submission).

Definition with_db (w : world) (d : gmap string (gmap string val)) : world :=
  {| db := d; outbox := outbox w |}.

(** At most one document per [emailClean] value. *)
Definition unique_emailClean (d : gmap string (gmap string val)) : Prop :=
  forall i j di dj v,
    d !! i = Some di -> d !! j = Some dj ->
    di !! "emailClean" = Some v -> dj !! "emailClean" = Some v -> i = j.

(** The ids that the include override adds in front of a page, first one
    last: those of [ids] that are neither among [seen] nor unknown to the
    store, in reverse order, each once. *)
Definition pinned_ids (d : gmap string (gmap string val)) (seen : gset string)
    (ids : list string) : list string :=
  remove_dups (reverse (filter (fun id => (id ∉ seen) /\ is_Some (d !! id)) ids)).

(** Their documents, restricted to the output fields. *)
Definition pinned_docs (d : gmap string (gmap string val)) (ids : list string)
  : list (gmap string val) :=
  omap (fun id => restrict_fields <$> d !! id) ids.

(** Equality of responses and worlds is decidable, so closed instances are
    settled by computation. *)
#[global] Instance mail_eq_dec : EqDecision mail.
Proof. solve_decision. Defined.

#[global] Instance world_eq_dec : EqDecision world.
Proof. solve_decision. Defined.

#[global] Instance rbody_eq_dec : EqDecision rbody.
Proof. solve_decision. Defined.

#[global] Instance response_eq_dec : EqDecision response.
Proof. solve_decision. Defined.

(** ** A run of the service *)

Module Sample.

Definition env1 : env :=
  {| now := "2020-04-01T12:00:00"; now_next := "2020-04-01T12:00:01";
     token_verify := "Zm9v-YmFy";
     token_delete := "cXV4-eno"; new_id := "id1" |}.

Definition env2 : env :=
  {| now := "2020-04-02T08:30:00"; now_next := "2020-04-02T08:30:02";
     token_verify := "dG9r_ZW4";
     token_delete := "ZGVs_ZXRl"; new_id := "id2" |}.

Definition env3 : env :=
  {| now := "2020-04-03T09:00:00"; now_next := "2020-04-03T09:00:03";
     token_verify := "YWJj-ZGVm";
     token_delete := "Z2hp-amts"; new_id := "id3" |}.

Definition story_of (name email : string) (debt : Z) : gmap string val :=
  <["name" := VStr name]> (<["debt" := VNum debt]>
    (<["story" := VStr "Two cents."]> (<["email" := VStr email]> ∅))).

Definition jane : gmap string val :=
  story_of "Jane Doe" "Jane.Doe+test@Example.com" 42000.

Definition jane_again : gmap string val :=
  story_of "Jane D." "janedoe@example.com" 100.

Definition bob : gmap string val := story_of "Bob Roe" "bob@example.com" 7000.

Definition create_request (submission : gmap string val) : event :=
  {| pathParameters := None; queryStringParameters := QNull;
     body := Some submission; domainName := "api.example.com"; stage := "dev" |}.

Definition token_request (id token : string) : event :=
  {| pathParameters := Some {["submissionId" := id]};
     queryStringParameters := QParams {["token" := token]};
     body := None; domainName := "api.example.com"; stage := "dev" |}.

Definition list_request (params : gmap string string) : event :=
  {| pathParameters := None; queryStringParameters := QParams params;
     body := None; domainName := "api.example.com"; stage := "dev" |}.

Definition empty : world := {| db := ∅; outbox := [] |}.

(** The record that a submission gives. *)
Definition record_of (e : env) (submission : gmap string val) : gmap string val :=
  match create_submission_record e submission with
  | inr record => record
  | inl _ => ∅
  end.

(** Jane has submitted her story. *)
Definition pending : world :=
  (post_submission env1 (create_request jane) empty).2.

Definition jane_record : gmap string val :=
  default ∅ (db pending !! "id1").

(** Jane has verified it. *)
Definition verified : world :=
  (verify_submission "https://ui.example" env2
     (token_request "id1" "Zm9vYmFy") pending).2.

(** Jane has deleted it again. *)
Definition deleted : world :=
  (delete_submission (token_request "id1" "cXV4eno") pending).2.

(** Bob's story was imported as verified, next to Jane's pending one. *)
Definition imported : world :=
  (post_verified_submission env2 (create_request bob) pending).2.

(** A second story for Jane's address was imported as verified. *)
Definition duplicated : world :=
  (post_verified_submission env2 (create_request jane_again) pending).2.

Definition jane_second_record : gmap string val :=
  default ∅ (db duplicated !! "id2").

Definition has_verifiedDate (source : gmap string val) : bool :=
  match source !! "verifiedDate" with
  | Some VNone | None => false
  | Some _ => true
  end.

Definition date_of (source : gmap string val) : string :=
  match source !! "verifiedDate" with
  | Some (VStr s) => s
  | _ => ""
  end.

Definition debt_of (source : gmap string val) : Z :=
  match source !! "debt" with
  | Some (VNum n) => n
  | _ => 0
  end.

(** Modelled from the spec: the search of the Document Store is not part
    of the handlers; section 4.4 gives its contract: the records with
    [verifiedDate] present, sorted by [verifiedDate] descending, projected
    to the four output fields, windowed by [from] and [limit], with the
    count and the sum of [debt] over the whole matching set. *)
Definition search (d : gmap string (gmap string val)) (from_ size : Z)
  : search_results :=
  let matching :=
    filter (fun kv => has_verifiedDate kv.2 = true) (map_to_list d) in
  let sorted :=
    merge_sort (fun a b => Is_true (String.leb (date_of b.2) (date_of a.2)))
      matching in
  {| hits := (fun kv => {| hit_id := kv.1; hit_source := restrict_fields kv.2 |})
             <$> take (Z.to_nat size) (drop (Z.to_nat from_) sorted);
     total_value := Z.of_nat (length matching);
     total_debt := VNum (foldr (fun kv acc => debt_of kv.2 + acc) 0 matching) |}.

End Sample.

(** ** Further vocabulary *)

(** The keys of a record that [create_submission_record] builds. *)
Definition record_keys : list string :=
  ["name"; "firstName"; "debt"; "story"; "email"; "emailClean"; "createdDate";
   "tokenVerify"; "tokenDelete"].

(** A link of the confirmation mail, as [send_email] builds it, for the
    action ["verify"] or ["delete"]. *)
Definition action_url (api_url id action token : string) : string :=
  path_join api_url ("submissions/" +:+ id +:+ "/" +:+ action)
  +:+ "?token=" +:+ token.

(** The fixed text of the confirmation mail around its two links. *)
Definition mail_opening : string :=
  "<body><p>Thank you for providing your student debt story to Two Cent Stories! For security purposes, we'd like to verify your email before publishing your story on our website.</p><p>Please verify your email to publish your story.</p><br/><br/><a target='_blank' href='".

Definition mail_between : string :=
  "'>Verify Your Story</a><br/><br/><a target='_blank' href='".

Definition mail_closing : string := "'>Delete Your Story</a></body>".

(** The confirmation mail for a record with the tokens [tv] and [td]. *)
Definition confirmation_mail (to : val) (api_url id tv td : string) : mail :=
  {| destination := to; subject := "Confirm Your Story";
     html := mail_opening +:+ action_url api_url id "verify" tv
             +:+ mail_between +:+ action_url api_url id "delete" td
             +:+ mail_closing |}.

(** The ids of the hits of a search. *)
Definition page_ids (results : search_results) : list string :=
  hit_id <$> hits results.

(** * Properties *)

Example clean_email_alias : clean_email "A.B+x@D.com" = inr "ab@d.com".
Proof. reflexivity. Qed.

Example int_examples :
  PyStr.int " 1_0 " = Some 10 /\ PyStr.int "-1" = Some (-1) /\
  PyStr.int "1__0" = None /\ PyStr.int "" = None /\ PyStr.int "+ 1" = None /\
  PyStr.int "007" = Some 7 /\ PyStr.int "1_" = None /\ PyStr.int "12a" = None.
Proof. repeat split; reflexivity. Qed.

(** ** Facts about the string functions *)

Module PyStrFacts.
Import PyStr.

Lemma All_app P x y : All P x -> All P y -> All P (x +:+ y).
Proof. induction x as [|a x IH]; simpl; [done | intros [? ?] ?; auto]. Qed.

Lemma app_assoc x y z : (x +:+ y) +:+ z = x +:+ (y +:+ z).
Proof.
  induction x as [|a x IH]; [done |].
  change (String a ((x +:+ y) +:+ z) = String a (x +:+ (y +:+ z))). by rewrite IH.
Qed.

Lemma has_char_false c s : has_char c s = false <-> All (fun a => a <> c) s.
Proof.
  induction s as [|a s IH]; simpl; [done |].
  destruct (decide (a = c)) as [->|Hne]; [split; [done | intros [? _]; done] |].
  rewrite IH. split; [by auto | by intros [_ ?]].
Qed.

Lemma has_char_true_app c s :
  has_char c s = true ->
  exists x y, s = x +:+ String c y /\ has_char c x = false.
Proof.
  induction s as [|a s IH]; simpl; [done |].
  destruct (decide (a = c)) as [->|Hne].
  - intros _. by exists EmptyString, s.
  - intros (x & y & -> & Hx)%IH. exists (String a x), y. simpl.
    by destruct (decide (a = c)).
Qed.

Lemma has_char_app c x y :
  has_char c (x +:+ y) = (has_char c x || has_char c y)%bool.
Proof. induction x as [|a x IH]; simpl; [done | by destruct (decide (a = c))]. Qed.

Lemma split_not_nil c s : split c s <> [].
Proof.
  destruct s as [|a s]; simpl; [done |].
  destruct (decide (a = c)); [done |]. by destruct (split c s).
Qed.

Lemma split_without c s : has_char c s = false -> split c s = [s].
Proof.
  induction s as [|a s IH]; simpl; [done |].
  destruct (decide (a = c)); [done |]. by intros ->%IH.
Qed.

Lemma split_app c x y :
  has_char c x = false -> split c (x +:+ String c y) = x :: split c y.
Proof.
  induction x as [|a x IH]; simpl.
  - intros _. by destruct (decide (c = c)).
  - destruct (decide (a = c)); [done |]. by intros ->%IH.
Qed.

Lemma split_All P c s : All P s -> Forall (All P) (split c s).
Proof.
  induction s as [|a s IH]; simpl; [by repeat constructor |].
  intros [Ha Hs]. specialize (IH Hs).
  destruct (decide (a = c)); [by constructor |].
  destruct (split c s) as [|p ps]; [by repeat constructor |].
  inversion_clear IH. by constructor.
Qed.

Lemma split_parts c s : Forall (All (fun a => a <> c)) (split c s).
Proof.
  induction s as [|a s IH]; simpl; [by repeat constructor |].
  destruct (decide (a = c)); [by constructor |].
  destruct (split c s) as [|p ps]; [by repeat constructor |].
  inversion_clear IH. by constructor.
Qed.

Lemma first_part_All P c s : All P s -> All P (first_part c s).
Proof.
  intros H%(split_All P c). unfold first_part.
  destruct (split c s); [done | by inversion_clear H].
Qed.

Lemma first_part_sep c s : All (fun a => a <> c) (first_part c s).
Proof.
  pose proof (split_parts c s) as H. unfold first_part.
  destruct (split c s); [done | by inversion_clear H].
Qed.

Lemma first_part_without c s : has_char c s = false -> first_part c s = s.
Proof. intros H. unfold first_part. by rewrite split_without. Qed.

Lemma first_part_app c x y :
  has_char c x = false -> first_part c (x +:+ String c y) = x.
Proof. intros H. unfold first_part. by rewrite split_app. Qed.

Lemma remove_All P c s : All P s -> All P (remove c s).
Proof.
  induction s as [|a s IH]; simpl; [done |].
  intros [? ?]. destruct (decide (a = c)); simpl; auto.
Qed.

Lemma remove_sep c s : All (fun a => a <> c) (remove c s).
Proof.
  induction s as [|a s IH]; simpl; [done |].
  destruct (decide (a = c)); simpl; auto.
Qed.

Lemma remove_without c s : has_char c s = false -> remove c s = s.
Proof.
  induction s as [|a s IH]; simpl; [done |].
  destruct (decide (a = c)); [done |]. by intros ->%IH.
Qed.

Lemma remove_remove c s : remove c (remove c s) = remove c s.
Proof. apply remove_without, has_char_false, remove_sep. Qed.

Lemma lower_ascii_idemp a : lower_ascii (lower_ascii a) = lower_ascii a.
Proof. destruct a as [[] [] [] [] [] [] [] []]; reflexivity. Qed.

Lemma lower_All s : All (fun a => lower_ascii a = a) (lower s).
Proof. induction s; simpl; auto using lower_ascii_idemp. Qed.

Lemma lower_fixed s : All (fun a => lower_ascii a = a) s -> lower s = s.
Proof. induction s as [|a s IH]; simpl; [done |]. by intros [-> ->%IH]. Qed.

Lemma lower_lower s : lower (lower s) = lower s.
Proof. apply lower_fixed, lower_All. Qed.

End PyStrFacts.

(** ** E-mail normalisation *)

Module CleanEmail.
Import PyStr PyStrFacts.

Lemma lower_ascii_punct a c :
  c ∈ ["@"; "."; "+"]%char -> lower_ascii a = c <-> a = c.
Proof.
  rewrite !elem_of_cons, elem_of_nil. intros [->|[->|[->|[]]]];
    destruct a as [[] [] [] [] [] [] [] []]; by compute.
Qed.

Lemma lower_app x y : lower (x +:+ y) = lower x +:+ lower y.
Proof. induction x as [|a x IH]; simpl; [done | by rewrite IH]. Qed.

Lemma has_char_lower c s :
  c ∈ ["@"; "."; "+"]%char -> has_char c (lower s) = has_char c s.
Proof.
  intros Hc. induction s as [|a s IH]; simpl; [done |]. rewrite IH.
  pose proof (lower_ascii_punct a c Hc) as Ha.
  destruct (decide (lower_ascii a = c)), (decide (a = c)); tauto.
Qed.

Lemma remove_lower c s :
  c ∈ ["@"; "."; "+"]%char -> remove c (lower s) = lower (remove c s).
Proof.
  intros Hc. induction s as [|a s IH]; simpl; [done |]. rewrite IH.
  pose proof (lower_ascii_punct a c Hc) as Ha.
  destruct (decide (lower_ascii a = c)), (decide (a = c)); simpl; tauto.
Qed.

Lemma remove_app c x y : remove c (x +:+ y) = remove c x +:+ remove c y.
Proof.
  induction x as [|a x IH]; simpl; [done |].
  destruct (decide (a = c)); simpl; by rewrite IH.
Qed.

Lemma has_char_remove c d s : has_char d s = false -> has_char d (remove c s) = false.
Proof. rewrite !has_char_false. apply remove_All. Qed.

(** The result on an address with an ['@']. *)
Lemma clean_email_at l d :
  has_char "@" l = false ->
  clean_email (l +:+ String "@" d)
  = inr (norm_local (lower l) +:+ "@" +:+ first_part "@" (lower d)).
Proof.
  intros Hl. unfold clean_email, first_part at 2.
  rewrite lower_app. simpl lower.
  replace (lower_ascii "@") with "@"%char by reflexivity.
  rewrite split_app by (rewrite has_char_lower; [done | set_solver]).
  pose proof (split_not_nil "@" (lower d)).
  by destruct (split "@" (lower d)).
Qed.

Lemma clean_email_defined e :
  has_char "@" e = true -> exists r, clean_email e = inr r.
Proof.
  intros (l & d & -> & Hl)%has_char_true_app. rewrite clean_email_at by done. eauto.
Qed.

Lemma clean_email_undefined e :
  has_char "@" e = false -> clean_email e = inl IndexError.
Proof.
  intros He. unfold clean_email.
  rewrite split_without; [done |]. rewrite has_char_lower; [done | set_solver].
Qed.

Lemma clean_email_fixed e r : clean_email e = inr r -> clean_email r = inr r.
Proof.
  unfold clean_email. intros He.
  pose proof (split_parts "@" (lower e)) as Hat.
  pose proof (split_All _ "@" _ (lower_All e)) as Hlow.
  destruct (split "@" (lower e)) as [|p0 [|p1 ps]]; try done.
  injection He as <-.
  inversion_clear Hat as [|? ? Hat0 Hat']. inversion_clear Hat' as [|? ? Hat1 _].
  inversion_clear Hlow as [|? ? Hlow0 Hlow']. inversion_clear Hlow' as [|? ? Hlow1 _].
  set (L := first_part "+" (remove "." p0)).
  assert (All (fun a => lower_ascii a = a) L) as HL1
    by by apply first_part_All, remove_All.
  assert (has_char "@" L = false) as HL2
    by by apply has_char_false, first_part_All, remove_All.
  assert (has_char "." L = false) as HL3
    by apply has_char_false, first_part_All, remove_sep.
  assert (has_char "+" L = false) as HL4
    by apply has_char_false, first_part_sep.
  change (L +:+ "@" +:+ p1) with (L +:+ String "@" p1).
  rewrite lower_fixed by (apply All_app; [done | by split]).
  rewrite split_app by done.
  rewrite (split_without "@" p1) by by apply has_char_false.
  by rewrite remove_without, first_part_without.
Qed.

End CleanEmail.

(** C5. E-mail normalisation is idempotent wherever it is defined, and it is
    defined on every address with an ['@']; it does not see the case of the
    letters, the dots of the local part or a ['+suffix'] of the local part;
    ["A.B+x@D.com"] and ["ab@d.com"] both normalise to ["ab@d.com"]. *)
Theorem clean_email_idempotent :
  (forall e r, clean_email e = inr r -> clean_email r = inr r) /\
  (forall e, PyStr.has_char "@" e = true ->
     exists r, clean_email e = inr r /\ clean_email r = inr r) /\
  (forall e, clean_email (PyStr.lower e) = clean_email e) /\
  (forall l d, PyStr.has_char "@" l = false ->
     clean_email (PyStr.remove "." l +:+ "@" +:+ d) = clean_email (l +:+ "@" +:+ d)) /\
  (forall l x d,
     PyStr.has_char "@" l = false -> PyStr.has_char "+" l = false ->
     PyStr.has_char "@" x = false ->
     clean_email (l +:+ "+" +:+ x +:+ "@" +:+ d) = clean_email (l +:+ "@" +:+ d)) /\
  clean_email "A.B+x@D.com" = inr "ab@d.com" /\
  clean_email "ab@d.com" = inr "ab@d.com".
Proof.
  split_and!; try reflexivity.
  - apply CleanEmail.clean_email_fixed.
  - intros e [r Hr]%CleanEmail.clean_email_defined.
    exists r. eauto using CleanEmail.clean_email_fixed.
  - intros e. unfold clean_email. by rewrite PyStrFacts.lower_lower.
  - intros l d Hl. change ("@" +:+ d) with (String "@" d).
    rewrite !CleanEmail.clean_email_at by by try apply CleanEmail.has_char_remove.
    unfold norm_local.
    rewrite <- CleanEmail.remove_lower by set_solver.
    by rewrite PyStrFacts.remove_remove.
  - intros l x d Hl Hp Hx. change ("@" +:+ d) with (String "@" d).
    change ("+" +:+ x +:+ String "@" d) with (String "+" (x +:+ String "@" d)).
    replace (l +:+ String "+" (x +:+ String "@" d))
      with ((l +:+ String "+" x) +:+ String "@" d)
      by apply (PyStrFacts.app_assoc l (String "+" x)).
    rewrite !CleanEmail.clean_email_at; [|done|].
    + unfold norm_local.
      rewrite CleanEmail.lower_app, CleanEmail.remove_app. simpl.
      change (PyStr.lower_ascii "+") with "+"%char.
      rewrite PyStrFacts.first_part_app, (PyStrFacts.first_part_without "+"); [done|..];
        apply CleanEmail.has_char_remove; rewrite CleanEmail.has_char_lower;
        first [done | set_solver].
    + rewrite PyStrFacts.has_char_app. simpl. by rewrite Hl, Hx.
Qed.

(** ** The token verifier: verify and delete *)

Lemma eqb_empty_false (s : string) : s <> "" -> String.eqb s "" = false.
Proof. by intros ?%String.eqb_neq. Qed.

Module TokenVerifier.

Lemma update_doc (e : env) (submission : gmap string val) :
  <["tokenVerify" := VNone]> (<["verifiedDate" := VStr (now e)]> ∅) ∪ submission
  = verified_doc e submission.
Proof.
  unfold verified_doc.
  by rewrite <- !insert_union_l, (left_id_L ∅ (∪)).
Qed.

(** The three outcomes of [verify_submission] on a stored document. *)
Lemma verify_at UI_HOST e ev w id token submission stored :
  carries ev id token ->
  db w !! id = Some submission ->
  submission !! "tokenVerify" = Some stored ->
  verify_submission UI_HOST e ev w =
    let redirect_url := UI_HOST +:+ "?verified=" +:+ id in
    if negb (truthy stored) then
      (inr (redirect 302 redirect_url
              "Your story has already been verified! Thank you :)"), w)
    else if bool_decide (VStr token ≠ stored) then
      (inr (respond 403 ("Token: " +:+ token +:+ " did not match")), w)
    else
      (inr (redirect 302 redirect_url
              "Your story has been verified! Thank you :)"),
       with_db w (<[id := verified_doc e submission]> (db w))).
Proof.
  intros (Hid & Hne & Htok & Hne') Hdb Hstored.
  unfold verify_submission, bind, lift, get_or, ES.get, ES.update, if_not.
  rewrite Hid, (eqb_empty_false id Hne), Htok, (eqb_empty_false token Hne'), Hdb.
  unfold item. rewrite Hstored. cbv zeta.
  destruct (negb (truthy stored)); [done |].
  destruct (bool_decide _); [done |].
  by rewrite Hdb, update_doc.
Qed.

(** The three outcomes of [delete_submission] on a stored document. *)
Lemma delete_at ev w id token submission stored :
  carries ev id token ->
  db w !! id = Some submission ->
  submission !! "tokenDelete" = Some stored ->
  delete_submission ev w =
    if negb (truthy stored) then
      (inr (respond 200 "Your story has already been deleted! Thank you :)"), w)
    else if bool_decide (VStr token ≠ stored) then
      (inr (respond 403 ("Token: " +:+ token +:+ " did not match")), w)
    else
      (inr (respond 200 "Your story has been deleted!"),
       with_db w (delete id (db w))).
Proof.
  intros (Hid & Hne & Htok & Hne') Hdb Hstored.
  unfold delete_submission, bind, lift, get_or, ES.get, ES.delete, if_not.
  rewrite Hid, (eqb_empty_false id Hne), Htok, (eqb_empty_false token Hne'), Hdb.
  unfold item. rewrite Hstored.
  destruct (negb (truthy stored)); [done |].
  destruct (bool_decide _); [done |].
  by rewrite Hdb.
Qed.

(** On an id that the store does not hold, both handlers answer 404 and
    never look at the token. *)
Lemma verify_absent UI_HOST e ev w id token :
  carries ev id token -> db w !! id = None ->
  verify_submission UI_HOST e ev w = (inr (respond 404 "Story not found"), w).
Proof.
  intros (Hid & Hne & Htok & Hne') Hdb.
  unfold verify_submission, bind, lift, get_or, ES.get, if_not.
  by rewrite Hid, (eqb_empty_false id Hne), Htok, (eqb_empty_false token Hne'), Hdb.
Qed.

Lemma delete_absent ev w id token :
  carries ev id token -> db w !! id = None ->
  delete_submission ev w
  = (inr (respond 404 "Story not found. Perhaps it has already been deleted!"), w).
Proof.
  intros (Hid & Hne & Htok & Hne') Hdb.
  unfold delete_submission, bind, lift, get_or, ES.get, if_not.
  by rewrite Hid, (eqb_empty_false id Hne), Htok, (eqb_empty_false token Hne'), Hdb.
Qed.

Lemma truthy_token token : token <> "" -> truthy (VStr token) = true.
Proof. intros H. simpl. by rewrite eqb_empty_false. Qed.

End TokenVerifier.

(** C1. A verify request that carries the id of a stored record and a token
    equal to the record's [tokenVerify] answers 302 with [Location]
    [UI_HOST?verified=<id>] and leaves the record with [tokenVerify] null and
    [verifiedDate] the current time, which the next get-by-id returns; nothing
    else changes.  After that, the same request again, or one with any other
    token, gets the "already verified" 302 to the same location and the world
    stays as it is: the token is not compared. *)
Theorem verify_once_then_already_verified
    UI_HOST e e' ev ev' w id token token' submission :
  carries ev id token ->
  db w !! id = Some submission ->
  submission !! "tokenVerify" = Some (VStr token) ->
  carries ev' id token' ->
  let url := UI_HOST +:+ "?verified=" +:+ id in
  let w' := with_db w (<[id := verified_doc e submission]> (db w)) in
  verify_submission UI_HOST e ev w
  = (inr (redirect 302 url "Your story has been verified! Thank you :)"), w') /\
  ES.get id w' = (inr (verified_doc e submission), w') /\
  verified_doc e submission !! "tokenVerify" = Some VNone /\
  verified_doc e submission !! "verifiedDate" = Some (VStr (now e)) /\
  (forall k, k <> "tokenVerify" -> k <> "verifiedDate" ->
     verified_doc e submission !! k = submission !! k) /\
  (forall j, j <> id -> db w' !! j = db w !! j) /\
  outbox w' = outbox w /\
  verify_submission UI_HOST e' ev w'
  = (inr (redirect 302 url "Your story has already been verified! Thank you :)"), w') /\
  verify_submission UI_HOST e' ev' w'
  = (inr (redirect 302 url "Your story has already been verified! Thank you :)"), w').
Proof.
  intros Hev Hdb Htok Hev' url w'.
  assert (db w' !! id = Some (verified_doc e submission)) as Hdb'
    by apply lookup_insert_eq.
  assert (verified_doc e submission !! "tokenVerify" = Some VNone) as Hnull
    by apply lookup_insert_eq.
  split_and!; try done.
  - rewrite (TokenVerifier.verify_at _ _ _ _ _ _ _ _ Hev Hdb Htok). cbv zeta.
    rewrite (TokenVerifier.truthy_token token) by apply Hev. simpl.
    by rewrite bool_decide_eq_false_2 by (intros H; by apply H).
  - unfold ES.get. by rewrite Hdb'.
  - unfold verified_doc. by rewrite lookup_insert_ne, lookup_insert_eq.
  - intros k ? ?. unfold verified_doc. by rewrite !lookup_insert_ne.
  - intros j ?. subst w'. simpl. by rewrite lookup_insert_ne.
  - by rewrite (TokenVerifier.verify_at _ _ _ _ _ _ _ _ Hev Hdb' Hnull).
  - by rewrite (TokenVerifier.verify_at _ _ _ _ _ _ _ _ Hev' Hdb' Hnull).
Qed.

(** C6. While the stored token of an action is set (the handlers' test: not
    null and not empty), a request that carries a different token is answered
    403 with the message "Token: <presented token> did not match", and the
    world is left as it was; this holds for verify and for delete. *)
Theorem wrong_token_forbidden UI_HOST e ev w id token submission stored :
  carries ev id token ->
  db w !! id = Some submission ->
  truthy stored = true ->
  VStr token <> stored ->
  (submission !! "tokenVerify" = Some stored ->
   verify_submission UI_HOST e ev w
   = (inr {| statusCode := 403; location := None;
             rbody_of := Text ("Token: " +:+ token +:+ " did not match") |}, w)) /\
  (submission !! "tokenDelete" = Some stored ->
   delete_submission ev w
   = (inr {| statusCode := 403; location := None;
             rbody_of := Text ("Token: " +:+ token +:+ " did not match") |}, w)).
Proof.
  intros Hev Hdb Htruthy Hne. split; intros Hstored.
  - rewrite (TokenVerifier.verify_at _ _ _ _ _ _ _ _ Hev Hdb Hstored). cbv zeta.
    by rewrite Htruthy, bool_decide_eq_true_2.
  - rewrite (TokenVerifier.delete_at _ _ _ _ _ _ Hev Hdb Hstored).
    by rewrite Htruthy, bool_decide_eq_true_2.
Qed.

(** C2 (as amended). A delete request that carries the id of a stored record
    and its [tokenDelete] answers 200 and removes the record, so that the next
    get-by-id fails with not-found and nothing else changes.  A second delete
    request for that id, with the same or with any other token, is answered
    404 "Story not found. Perhaps it has already been deleted!": the record is
    gone, so no token is compared and nothing is written. *)
Theorem delete_then_not_found ev ev' w id token token' submission :
  carries ev id token ->
  db w !! id = Some submission ->
  submission !! "tokenDelete" = Some (VStr token) ->
  carries ev' id token' ->
  let w' := with_db w (delete id (db w)) in
  delete_submission ev w = (inr (respond 200 "Your story has been deleted!"), w') /\
  ES.get id w' = (inl NotFoundError, w') /\
  (forall j, j <> id -> db w' !! j = db w !! j) /\
  outbox w' = outbox w /\
  delete_submission ev w'
  = (inr (respond 404 "Story not found. Perhaps it has already been deleted!"), w') /\
  delete_submission ev' w'
  = (inr (respond 404 "Story not found. Perhaps it has already been deleted!"), w').
Proof.
  intros Hev Hdb Htok Hev' w'.
  assert (db w' !! id = None) as Hdb' by apply lookup_delete_eq.
  split_and!; try done.
  - rewrite (TokenVerifier.delete_at _ _ _ _ _ _ Hev Hdb Htok).
    rewrite (TokenVerifier.truthy_token token) by apply Hev. simpl.
    by rewrite bool_decide_eq_false_2 by (intros H; by apply H).
  - unfold ES.get. by rewrite Hdb'.
  - intros j ?. subst w'. simpl. by rewrite lookup_delete_ne.
  - by apply (TokenVerifier.delete_absent _ _ id token).
  - by apply (TokenVerifier.delete_absent _ _ id token').
Qed.

Module MissingParts.

(** An empty submission id is answered 400 before anything else is read. *)
Lemma missing_id UI_HOST e ev w :
  read_submission_id ev = inr "" ->
  verify_submission UI_HOST e ev w = (inr (respond 400 "Submission id missing"), w) /\
  delete_submission ev w = (inr (respond 400 "Submission id missing"), w).
Proof.
  intros Hid. unfold verify_submission, delete_submission, bind, lift.
  by rewrite Hid.
Qed.

(** With an id, a token that is absent or empty is answered 400, as long as
    [queryStringParameters] is absent from the event or is a dict. *)
Lemma missing_token UI_HOST e ev w id token :
  read_submission_id ev = inr id -> id <> "" ->
  read_token ev = inr token -> token = None \/ token = Some "" ->
  verify_submission UI_HOST e ev w = (inr (respond 400 "Token missing"), w) /\
  delete_submission ev w = (inr (respond 400 "Token missing"), w).
Proof.
  intros Hid Hne Htok Hmiss.
  unfold verify_submission, delete_submission, bind, lift.
  rewrite Hid, (eqb_empty_false id Hne), Htok. by destruct Hmiss as [-> | ->].
Qed.

(** The listing reads the same field with [or {}] and so accepts a null
    [queryStringParameters]. *)
Lemma listing_null_query ev : queryStringParameters ev = QNull -> query_params ev = ∅.
Proof. unfold query_params. by intros ->. Qed.

End MissingParts.

(** C9, at the failing input: a request with a submission id and no query
    string at all, for which [queryStringParameters] is null.  Both handlers
    raise [AttributeError] from [.get("token")] instead of answering 400; the
    store is not touched. *)
Theorem missing_token_null_query_raises UI_HOST e w :
  let ev := {| pathParameters := Some {["submissionId" := "abc"]};
               queryStringParameters := QNull;
               body := None; domainName := "api"; stage := "dev" |} in
  verify_submission UI_HOST e ev w = (inl AttributeError, w) /\
  delete_submission ev w = (inl AttributeError, w).
Proof. done. Qed.

(** ** Creation and the duplicate guard *)

Module Creation.

(** What a record that was built is made of. *)
Lemma record_inv e submission record :
  create_submission_record e submission = inr record ->
  exists name_s debt story email_s cleaned,
    submission !! "name" = Some (VStr name_s) /\
    submission !! "debt" = Some debt /\
    submission !! "story" = Some story /\
    submission !! "email" = Some (VStr email_s) /\
    clean_email email_s = inr cleaned /\
    record =
      <["name" := VStr name_s]>
      (<["firstName" := VStr (PyStr.first_part " " name_s)]>
      (<["debt" := debt]>
      (<["story" := story]>
      (<["email" := VStr email_s]>
      (<["emailClean" := VStr cleaned]>
      (<["createdDate" := VStr (now e)]>
      (<["tokenVerify" := VStr (PyStr.remove "-" (token_verify e))]>
      (<["tokenDelete" := VStr (PyStr.remove "-" (token_delete e))]> ∅)))))))).
Proof.
  unfold create_submission_record, item, as_str.
  destruct (submission !! "name") as [[|name_s|]|]; try done.
  destruct (submission !! "debt") as [debt|]; try done.
  destruct (submission !! "story") as [story|]; try done.
  destruct (submission !! "email") as [[|email_s|]|]; try done.
  destruct (clean_email email_s) as [|cleaned] eqn:Hclean; try done.
  intros [= <-]. by exists name_s, debt, story, email_s, cleaned.
Qed.

Lemma record_emailClean e submission record :
  create_submission_record e submission = inr record ->
  exists email_s cleaned,
    submission !! "email" = Some (VStr email_s) /\
    clean_email email_s = inr cleaned /\
    record !! "emailClean" = Some (VStr cleaned).
Proof.
  intros (name_s & debt & story & email_s & cleaned & _ & _ & _ & He & Hc & ->)%record_inv.
  by exists email_s, cleaned.
Qed.

(** A record is built with both tokens set to the random text without its
    dashes, and without [verifiedDate]. *)
Lemma record_tokens e submission record :
  create_submission_record e submission = inr record ->
  record !! "tokenVerify" = Some (VStr (PyStr.remove "-" (token_verify e))) /\
  record !! "tokenDelete" = Some (VStr (PyStr.remove "-" (token_delete e))) /\
  record !! "verifiedDate" = None.
Proof.
  by intros (name_s & debt & story & email_s & cleaned & _ & _ & _ & _ & _ & ->)%record_inv.
Qed.

(** An address without ['@'] never yields a record. *)
Lemma record_no_at e submission email_s :
  submission !! "email" = Some (VStr email_s) ->
  PyStr.has_char "@" email_s = false ->
  exists x, create_submission_record e submission = inl x.
Proof.
  intros He Hat. unfold create_submission_record, item.
  rewrite He. simpl. rewrite (CleanEmail.clean_email_undefined _ Hat).
  destruct (submission !! "name") as [name|]; [|by eauto].
  destruct (as_str name); [by eauto|].
  destruct (submission !! "debt"); [|by eauto].
  destruct (submission !! "story"); by eauto.
Qed.

Lemma count_zero (v : val) (d : gmap string (gmap string val)) :
  size (filter (fun kv => kv.2 !! "emailClean" = Some v) d) = 0%nat <->
  forall i di, d !! i = Some di -> di !! "emailClean" <> Some v.
Proof.
  rewrite map_size_empty_iff, map_empty.
  setoid_rewrite map_lookup_filter_None. simpl. split.
  - intros H i di Hi. destruct (H i) as [H'|H']; [congruence | by apply H'].
  - intros H i. destruct (d !! i) as [di|] eqn:Hi; [right | by left].
    intros x [= <-]. by apply (H i).
Qed.

(** The three courses of [post_submission] once the record is built. *)
Lemma post_submission_built e ev w submission record v :
  body ev = Some submission ->
  create_submission_record e submission = inr record ->
  record !! "emailClean" = Some v ->
  post_submission e ev w =
    if negb (size (filter (fun kv => kv.2 !! "emailClean" = Some v) (db w)) =? 0)%nat
    then
      (inr (respond 409
              "Your story has already been submitted. Please check your email :)"), w)
    else
      (inr {| statusCode := 200; location := None;
              rbody_of := JsonId (new_id e) |},
       (send_email record (new_id e) (get_api_url ev)
          (with_db w (<[new_id e := record]> (db w)))).2).
Proof.
  intros Hbody Hrec Hclean.
  unfold post_submission, bind, lift, loads_body, ES.count_emailClean, ES.index.
  rewrite Hbody, Hrec. unfold item at 1. rewrite Hclean.
  destruct (negb _); [done |].
  apply record_inv in Hrec as (? & ? & ? & ? & ? & _ & _ & _ & _ & _ & ->).
  done.
Qed.

(** Sending the mail leaves the store alone. *)
Lemma send_email_db record id url w : db (send_email record id url w).2 = db w.
Proof.
  unfold send_email, bind, lift, ses_send_email.
  destruct (item record "tokenVerify"); [done |].
  destruct (item record "tokenDelete"); [done |].
  by destruct (item record "email").
Qed.

(** A creation that fails to build the record raises and writes nothing,
    at both entry points. *)
Lemma no_record_raises e ev w submission x :
  body ev = Some submission ->
  create_submission_record e submission = inl x ->
  post_submission e ev w = (inl x, w) /\
  post_verified_submission e ev w = (inl x, w).
Proof.
  intros Hbody Hrec.
  unfold post_submission, post_verified_submission, bind, lift, loads_body.
  by rewrite Hbody, Hrec.
Qed.

Lemma post_submission_conflict e ev w submission record id d :
  body ev = Some submission ->
  create_submission_record e submission = inr record ->
  db w !! id = Some d ->
  d !! "emailClean" = record !! "emailClean" ->
  post_submission e ev w =
    (inr (respond 409
            "Your story has already been submitted. Please check your email :)"), w).
Proof.
  intros Hbody Hrec Hdb Hsame.
  destruct (record_emailClean _ _ _ Hrec) as (email_s & cleaned & _ & _ & Hclean).
  rewrite (post_submission_built _ _ _ _ _ _ Hbody Hrec Hclean).
  destruct (Nat.eqb_spec
    (size (filter (fun kv => kv.2 !! "emailClean" = Some (VStr cleaned)) (db w))) 0)
    as [Hzero|]; [|done].
  rewrite count_zero in Hzero. destruct (Hzero id d Hdb). congruence.
Qed.

(** A well-formed submission yields a record. *)
Lemma record_built e submission name_s debt story email_s cleaned :
  submission !! "name" = Some (VStr name_s) ->
  submission !! "debt" = Some debt ->
  submission !! "story" = Some story ->
  submission !! "email" = Some (VStr email_s) ->
  clean_email email_s = inr cleaned ->
  exists record,
    create_submission_record e submission = inr record /\
    record !! "emailClean" = Some (VStr cleaned).
Proof.
  intros Hn Hd Hs He Hc. unfold create_submission_record, item.
  rewrite Hn, Hd, Hs, He. simpl. rewrite Hc. by eexists.
Qed.

Lemma post_submission_unique e ev w :
  unique_emailClean (db w) -> unique_emailClean (db (post_submission e ev w).2).
Proof.
  intros Huniq.
  destruct (body ev) as [submission|] eqn:Hbody; cycle 1.
  { unfold post_submission, bind, lift, loads_body. by rewrite Hbody. }
  destruct (create_submission_record e submission) as [x|record] eqn:Hrec.
  { by rewrite (proj1 (Creation.no_record_raises e ev w _ _ Hbody Hrec)). }
  destruct (Creation.record_emailClean _ _ _ Hrec)
    as (email_s & cleaned & _ & _ & Hclean).
  rewrite (Creation.post_submission_built _ _ _ _ _ _ Hbody Hrec Hclean).
  destruct (Nat.eqb_spec
    (size (filter (fun kv => kv.2 !! "emailClean" = Some (VStr cleaned)) (db w))) 0)
    as [Hzero|]; [|done].
  rewrite Creation.count_zero in Hzero. simpl.
  rewrite Creation.send_email_db. simpl.
  intros i j di dj v Hi Hj Hvi Hvj.
  destruct (decide (i = new_id e)) as [->|Hin], (decide (j = new_id e)) as [->|Hjn];
    [done | | |].
  - rewrite lookup_insert_eq in Hi. rewrite lookup_insert_ne in Hj by done.
    injection Hi as <-. destruct (Hzero j dj Hj). congruence.
  - rewrite lookup_insert_eq in Hj. rewrite lookup_insert_ne in Hi by done.
    injection Hj as <-. destruct (Hzero i di Hi). congruence.
  - rewrite lookup_insert_ne in Hi, Hj by done. by apply (Huniq i j di dj v).
Qed.

Lemma post_verified_submission_built e ev w submission record :
  body ev = Some submission ->
  create_submission_record e submission = inr record ->
  post_verified_submission e ev w
  = (inr {| statusCode := 200; location := None; rbody_of := JsonId (new_id e) |},
     with_db w (<[new_id e := mark_verified (later e) record]> (db w))).
Proof.
  intros Hbody Hrec.
  unfold post_verified_submission, bind, lift, loads_body.
  by rewrite Hbody, Hrec.
Qed.

End Creation.

(** C4. When the store holds a record whose [emailClean] is the normalised
    e-mail of a new pending submission, [post_submission] answers 409 with
    the message for the user; the store and the outbox are as before: no
    record is created and no mail is sent. *)
Theorem duplicate_email_conflict
    e ev w submission name_s debt story email_s cleaned id d :
  body ev = Some submission ->
  submission !! "name" = Some (VStr name_s) ->
  submission !! "debt" = Some debt ->
  submission !! "story" = Some story ->
  submission !! "email" = Some (VStr email_s) ->
  clean_email email_s = inr cleaned ->
  db w !! id = Some d ->
  d !! "emailClean" = Some (VStr cleaned) ->
  post_submission e ev w
  = (inr {| statusCode := 409; location := None;
            rbody_of :=
              Text "Your story has already been submitted. Please check your email :)" |},
     w).
Proof.
  intros Hbody Hn Hd Hs He Hc Hdb Hsame.
  destruct (Creation.record_built e _ _ _ _ _ _ Hn Hd Hs He Hc)
    as (record & Hrec & Hclean).
  apply (Creation.post_submission_conflict _ _ _ _ _ _ _ Hbody Hrec Hdb). congruence.
Qed.

(** C3 (as amended). The existence check guards the pending entry point
    only.  There, an attempt whose [emailClean] is that of a stored record is
    answered 409 and writes nothing, so a store with at most one record per
    [emailClean] stays so after any call of [post_submission].  The
    pre-verified entry point makes no check: whenever the record can be built
    it is written, already verified at the next reading of the clock, under
    the id that the store assigns. *)
Theorem pending_creation_guarded :
  (forall e ev w submission record id d,
     body ev = Some submission ->
     create_submission_record e submission = inr record ->
     db w !! id = Some d ->
     d !! "emailClean" = record !! "emailClean" ->
     post_submission e ev w
     = (inr (respond 409
               "Your story has already been submitted. Please check your email :)"),
        w)) /\
  (forall e ev w,
     unique_emailClean (db w) -> unique_emailClean (db (post_submission e ev w).2)) /\
  (forall e ev w submission record,
     body ev = Some submission ->
     create_submission_record e submission = inr record ->
     post_verified_submission e ev w
     = (inr {| statusCode := 200; location := None; rbody_of := JsonId (new_id e) |},
        with_db w (<[new_id e := mark_verified (later e) record]> (db w)))).
Proof.
  split_and!.
  - apply Creation.post_submission_conflict.
  - apply Creation.post_submission_unique.
  - apply Creation.post_verified_submission_built.
Qed.

(** C10. [clean_email] is defined exactly on the strings that contain an
    ['@'].  A creation request whose e-mail has none raises, at both entry
    points, instead of answering, and writes nothing; the exception is the
    [IndexError] of [parts[1]] when the other fields are in order.  With more
    than one ['@'], what follows the second ['@'] does not reach
    [emailClean]. *)
Theorem clean_email_needs_at :
  (forall s, PyStr.has_char "@" s = false -> clean_email s = inl IndexError) /\
  (forall s, PyStr.has_char "@" s = true -> exists r, clean_email s = inr r) /\
  (forall e ev w submission email_s,
     body ev = Some submission ->
     submission !! "email" = Some (VStr email_s) ->
     PyStr.has_char "@" email_s = false ->
     exists x,
       post_submission e ev w = (inl x, w) /\
       post_verified_submission e ev w = (inl x, w) /\
       (forall name_s debt story,
          submission !! "name" = Some (VStr name_s) ->
          submission !! "debt" = Some debt ->
          submission !! "story" = Some story ->
          x = IndexError)) /\
  (forall l d rest,
     PyStr.has_char "@" l = false -> PyStr.has_char "@" d = false ->
     clean_email (l +:+ "@" +:+ d +:+ "@" +:+ rest) = clean_email (l +:+ "@" +:+ d)).
Proof.
  split_and!.
  - apply CleanEmail.clean_email_undefined.
  - apply CleanEmail.clean_email_defined.
  - intros e ev w submission email_s Hbody He Hat.
    destruct (Creation.record_no_at e _ _ He Hat) as [x Hx].
    exists x. destruct (Creation.no_record_raises e ev w _ _ Hbody Hx) as [-> ->].
    split_and!; [done..|].
    intros name_s debt story Hn Hd Hs. revert Hx.
    unfold create_submission_record, item.
    rewrite Hn, Hd, Hs, He. simpl.
    rewrite (CleanEmail.clean_email_undefined _ Hat). congruence.
  - intros l d rest Hl Hd.
    change ("@" +:+ d +:+ "@" +:+ rest) with (String "@" (d +:+ String "@" rest)).
    change ("@" +:+ d) with (String "@" d).
    rewrite !CleanEmail.clean_email_at by done.
    rewrite CleanEmail.lower_app. simpl PyStr.lower.
    change (PyStr.lower_ascii "@") with "@"%char.
    rewrite PyStrFacts.first_part_app, (PyStrFacts.first_part_without "@"); [done|..];
      rewrite CleanEmail.has_char_lower; first [done | set_solver].
Qed.

(** ** The listing *)

Module Listing.

Lemma remove_dups_snoc (l : list string) x :
  remove_dups (l ++ [x]) = remove_dups (filter (fun y => y <> x) l) ++ [x].
Proof.
  induction l as [|a l IH]; [done |].
  destruct (decide (a = x)) as [->|Hne].
  - rewrite filter_cons_False by (by intros []). rewrite <- IH. simpl.
    destruct (decide_rel elem_of x (l ++ [x])) as [|Hin]; [done |].
    destruct Hin. apply elem_of_app. right. by left.
  - rewrite filter_cons_True by done. simpl. rewrite IH.
    destruct (decide_rel elem_of a (l ++ [x])) as [Hin|Hin],
      (decide_rel elem_of a (filter (fun y => y <> x) l)) as [Hin'|Hin']; try done.
    + destruct Hin'. apply list_elem_of_filter. split; [done |].
      apply elem_of_app in Hin as [?|Hin]; [done |].
      by apply list_elem_of_singleton in Hin.
    + destruct Hin. apply elem_of_app. left.
      by apply list_elem_of_filter in Hin' as [_ ?].
Qed.

Lemma pinned_ids_skip d seen id rest :
  id ∈ seen \/ d !! id = None ->
  pinned_ids d seen (id :: rest) = pinned_ids d seen rest.
Proof.
  intros H. unfold pinned_ids. rewrite filter_cons_False; [done |].
  intros [Hseen [? Hsome]]. destruct H; [done | congruence].
Qed.

Lemma pinned_ids_take d seen id rest :
  id ∉ seen -> is_Some (d !! id) ->
  pinned_ids d seen (id :: rest) = pinned_ids d ({[id]} ∪ seen) rest ++ [id].
Proof.
  intros Hseen Hsome. unfold pinned_ids.
  rewrite filter_cons_True by done.
  rewrite reverse_cons, remove_dups_snoc. do 2 f_equal.
  rewrite filter_reverse. f_equal.
  rewrite list_filter_filter. apply list_filter_iff. intros x.
  rewrite not_elem_of_union, not_elem_of_singleton. tauto.
Qed.

(** The loop adds the pinned documents in front of what it was given, and
    neither raises nor writes. *)
Lemma include_loop_pinned ids : forall seen submissions w,
  include_loop ids seen submissions w
  = (inr (pinned_docs (db w) (pinned_ids (db w) seen ids) ++ submissions), w).
Proof.
  induction ids as [|id rest IH]; intros seen submissions w; [done |].
  simpl. destruct (decide (id ∈ seen)) as [Hseen|Hseen].
  - rewrite IH, pinned_ids_skip; auto.
  - unfold get_or, ES.get. destruct (db w !! id) as [source|] eqn:Hid.
    + rewrite IH, pinned_ids_take by eauto.
      unfold pinned_docs. rewrite omap_app. simpl. rewrite Hid. simpl.
      by rewrite <- app_assoc.
    + rewrite IH, pinned_ids_skip; auto.
Qed.

Lemma pinned_docs_known d (l : list string) :
  (forall id, id ∈ l -> is_Some (d !! id)) ->
  pinned_docs d l = (fun id => restrict_fields (default ∅ (d !! id))) <$> l.
Proof.
  intros Hall. induction l as [|id l IH]; [done |].
  change (pinned_docs d (id :: l))
    with (match restrict_fields <$> d !! id with
          | Some y => y :: pinned_docs d l
          | None => pinned_docs d l
          end).
  destruct (Hall id) as [source Hs]; [by left |].
  rewrite fmap_cons, Hs. simpl. f_equal.
  apply IH. intros ? ?. apply Hall. by right.
Qed.

Lemma restrict_fields_lookup source k :
  restrict_fields source !! k
  = if decide (k ∈ fields_to_output) then source !! k else None.
Proof.
  unfold restrict_fields. destruct (decide (k ∈ fields_to_output)) as [Hk|Hk].
  - destruct (source !! k) as [v|] eqn:Hv.
    + by apply map_lookup_filter_Some.
    + apply map_lookup_filter_None. by left.
  - apply map_lookup_filter_None. right. by intros v _.
Qed.


End Listing.

(** C7. With a non-empty [include] parameter the listing answers 200 with
    the pinned documents in front of the page.  Only the first three ids of
    the comma-separated list are looked at.  The pinned ids are exactly those
    of them that are not in the page and that the store knows, each once,
    the id processed last coming first; ids that the store does not know and
    ids of the page add nothing.  Each pinned document is cut down to the
    four output fields.  Nothing is written. *)
Theorem include_pins_in_front ES_search ev w s :
  query_params ev !! "include" = Some s ->
  s <> "" ->
  let results :=
    ES_search (db w) (read_from (query_params ev)) (read_limit (query_params ev)) in
  let page_ids : list string := hit_id <$> hits results in
  let ids : list string := take 3 (PyStr.split "," s) in
  let pinned := pinned_ids (db w) (list_to_set page_ids) ids in
  get_submissions ES_search ev w
  = (inr {| statusCode := 200; location := None;
            rbody_of := JsonListing
                          (pinned_docs (db w) pinned ++ (hit_source <$> hits results))
                          (total_value results) (total_debt results) |}, w) /\
  (length ids <= 3)%nat /\
  pinned = remove_dups (reverse (filter (fun id => (id ∉ page_ids) /\ is_Some (db w !! id)) ids)) /\
  (forall id, id ∈ pinned <-> (id ∈ ids) /\ (id ∉ page_ids) /\ is_Some (db w !! id)) /\
  NoDup pinned /\
  length (pinned_docs (db w) pinned) = length pinned /\
  (forall i id, pinned !! i = Some id ->
     pinned_docs (db w) pinned !! i = restrict_fields <$> db w !! id) /\
  (forall source k,
     restrict_fields source !! k
     = if decide (k ∈ ["firstName"; "debt"; "story"; "verifiedDate"])
       then source !! k else None).
Proof.
  intros Hinc Hne results page_ids ids pinned.
  assert (forall id, id ∈ pinned <-> (id ∈ ids) /\ (id ∉ page_ids) /\ is_Some (db w !! id))
    as Hpinned.
  { intros id. unfold pinned, pinned_ids.
    rewrite elem_of_remove_dups, elem_of_reverse, list_elem_of_filter.
    rewrite elem_of_list_to_set. tauto. }
  assert (pinned_docs (db w) pinned = (fun id => restrict_fields (default ∅ (db w !! id))) <$> pinned)
    as Hdocs.
  { apply Listing.pinned_docs_known. intros id ?. by apply Hpinned. }
  split_and!.
  - unfold get_submissions, bind. fold results. unfold read_include.
    rewrite Hinc, (eqb_empty_false s Hne). fold ids.
    by rewrite Listing.include_loop_pinned.
  - unfold ids. rewrite length_take. lia.
  - unfold pinned, pinned_ids. f_equal. f_equal. apply list_filter_iff.
    intros id. by rewrite elem_of_list_to_set.
  - done.
  - apply NoDup_remove_dups.
  - by rewrite Hdocs, length_fmap.
  - intros i id Hi. rewrite Hdocs, list_lookup_fmap, Hi. simpl.
    destruct (proj1 (Hpinned id)) as (_ & _ & [source ->]); [|done].
    by apply list_elem_of_lookup_2 in Hi.
  - apply Listing.restrict_fields_lookup.
Qed.


Lemma clean_email_idempotent_witness :
  clean_email "janedoe@example.com" = inr "janedoe@example.com".
Proof.
  apply (proj1 clean_email_idempotent "Jane.Doe+test@Example.com"). reflexivity.
Defined.

Lemma clean_email_needs_at_witness : clean_email "jane.example.com" = inl IndexError.
Proof. apply (proj1 clean_email_needs_at). reflexivity. Defined.

Lemma carries_token_request id token :
  bool_decide (id <> "") = true -> bool_decide (token <> "") = true ->
  carries (Sample.token_request id token) id token.
Proof.
  intros Hid%bool_decide_eq_true_1 Htoken%bool_decide_eq_true_1.
  split_and!; try done; unfold read_submission_id, read_token, item; simpl;
    by rewrite lookup_singleton_eq.
Defined.

Lemma verify_once_then_already_verified_witness :
  verify_submission "https://ui.example" Sample.env2
    (Sample.token_request "id1" "Zm9vYmFy") Sample.pending
  = (inr (redirect 302 ("https://ui.example" +:+ "?verified=" +:+ "id1")
            "Your story has been verified! Thank you :)"),
     with_db Sample.pending
       (<["id1" := verified_doc Sample.env2 Sample.jane_record]> (db Sample.pending))).
Proof.
  refine (proj1 (verify_once_then_already_verified "https://ui.example"
                   Sample.env2 Sample.env3
                   (Sample.token_request "id1" "Zm9vYmFy")
                   (Sample.token_request "id1" "Zm9vYmFy")
                   Sample.pending "id1" "Zm9vYmFy" "Zm9vYmFy" Sample.jane_record
                   _ _ _ _));
    first [ by apply carries_token_request | compute_done ].
Defined.

Lemma wrong_token_forbidden_witness :
  verify_submission "https://ui.example" Sample.env2
    (Sample.token_request "id1" "guess") Sample.pending
  = (inr {| statusCode := 403; location := None;
            rbody_of := Text ("Token: " +:+ "guess" +:+ " did not match") |},
     Sample.pending).
Proof.
  refine (proj1 (wrong_token_forbidden "https://ui.example" Sample.env2
                   (Sample.token_request "id1" "guess") Sample.pending
                   "id1" "guess" Sample.jane_record (VStr "Zm9vYmFy")
                   _ _ _ _) _);
    first [ by apply carries_token_request | discriminate | compute_done ].
Defined.

Lemma delete_then_not_found_witness :
  delete_submission (Sample.token_request "id1" "cXV4eno") Sample.pending
  = (inr (respond 200 "Your story has been deleted!"),
     with_db Sample.pending (delete "id1" (db Sample.pending))).
Proof.
  refine (proj1 (delete_then_not_found
                   (Sample.token_request "id1" "cXV4eno")
                   (Sample.token_request "id1" "cXV4eno")
                   Sample.pending "id1" "cXV4eno" "cXV4eno" Sample.jane_record
                   _ _ _ _));
    first [ by apply carries_token_request | compute_done ].
Defined.

(** Counterexample to C2 as stated: after Jane's story is deleted, the second
    delete request with the same token is answered 404, not the 200 "already
    deleted". *)
Lemma second_delete_is_not_found :
  db Sample.pending !! "id1" = Some Sample.jane_record /\
  Sample.jane_record !! "tokenDelete" = Some (VStr "cXV4eno") /\
  delete_submission (Sample.token_request "id1" "cXV4eno") Sample.pending
  = (inr (respond 200 "Your story has been deleted!"), Sample.deleted) /\
  ES.get "id1" Sample.deleted = (inl NotFoundError, Sample.deleted) /\
  delete_submission (Sample.token_request "id1" "cXV4eno") Sample.deleted
  = (inr (respond 404 "Story not found. Perhaps it has already been deleted!"),
     Sample.deleted) /\
  (delete_submission (Sample.token_request "id1" "cXV4eno") Sample.deleted).1
  <> inr (respond 200 "Your story has already been deleted! Thank you :)").
Proof. split_and!; compute_done. Qed.

Lemma duplicate_email_conflict_witness :
  post_submission Sample.env2 (Sample.create_request Sample.jane_again) Sample.pending
  = (inr {| statusCode := 409; location := None;
            rbody_of :=
              Text "Your story has already been submitted. Please check your email :)" |},
     Sample.pending).
Proof.
  apply (duplicate_email_conflict Sample.env2 (Sample.create_request Sample.jane_again)
           Sample.pending Sample.jane_again "Jane D." (VNum 100) (VStr "Two cents.")
           "janedoe@example.com" "janedoe@example.com" "id1" Sample.jane_record);
    compute_done.
Defined.

Lemma pending_creation_guarded_witness :
  unique_emailClean (db Sample.pending).
Proof.
  apply (proj1 (proj2 pending_creation_guarded) Sample.env1
           (Sample.create_request Sample.jane) Sample.empty).
  intros i j di dj v Hi. simpl in Hi. by rewrite lookup_empty in Hi.
Defined.

(** Counterexample to C3 as stated: the pre-verified entry point accepts a
    second story for Jane's normalised address and stores it next to the
    first. *)
Lemma pre_verified_creation_is_unguarded :
  db Sample.pending !! "id1" = Some Sample.jane_record /\
  Sample.jane_record !! "emailClean" = Some (VStr "janedoe@example.com") /\
  post_verified_submission Sample.env2 (Sample.create_request Sample.jane_again)
    Sample.pending
  = (inr {| statusCode := 200; location := None; rbody_of := JsonId "id2" |},
     Sample.duplicated) /\
  db Sample.duplicated !! "id1" = Some Sample.jane_record /\
  db Sample.duplicated !! "id2" = Some Sample.jane_second_record /\
  Sample.jane_second_record !! "emailClean" = Some (VStr "janedoe@example.com") /\
  ~ unique_emailClean (db Sample.duplicated).
Proof.
  assert (db Sample.duplicated !! "id1" = Some Sample.jane_record) as H1
    by compute_done.
  assert (db Sample.duplicated !! "id2" = Some Sample.jane_second_record) as H2
    by compute_done.
  assert (Sample.jane_record !! "emailClean" = Some (VStr "janedoe@example.com")) as E1
    by compute_done.
  assert (Sample.jane_second_record !! "emailClean" = Some (VStr "janedoe@example.com"))
    as E2 by compute_done.
  split_and!;
    [compute_done | exact E1 | compute_done | exact H1 | exact H2 | exact E2 |].
  intros Huniq. discriminate (Huniq "id1" "id2" _ _ _ H1 H2 E1 E2).
Qed.

Lemma include_pins_in_front_witness :
  get_submissions Sample.search
    (Sample.list_request {["include" := "id1,nope,id2,id1"]}) Sample.imported
  = (inr {| statusCode := 200; location := None;
            rbody_of := JsonListing
                          (pinned_docs (db Sample.imported) ["id1"]
                           ++ (hit_source <$> hits (Sample.search (db Sample.imported) 0 90)))
                          1 (VNum 7000) |}, Sample.imported).
Proof.
  etrans;
    [ refine (proj1 (include_pins_in_front Sample.search
                       (Sample.list_request {["include" := "id1,nope,id2,id1"]})
                       Sample.imported "id1,nope,id2,id1" _ _));
      [compute_done | discriminate]
    | compute_done ].
Defined.


(** The end-to-end run of the specification: Jane submits, verifies with the
    token of her mail, and is listed with the four output fields. *)
Example end_to_end :
  post_submission Sample.env1 (Sample.create_request Sample.jane) Sample.empty
  = (inr {| statusCode := 200; location := None; rbody_of := JsonId "id1" |},
     Sample.pending) /\
  size (db Sample.pending) = 1%nat /\
  Sample.jane_record !! "emailClean" = Some (VStr "janedoe@example.com") /\
  Sample.jane_record !! "tokenVerify" = Some (VStr "Zm9vYmFy") /\
  Sample.jane_record !! "tokenDelete" = Some (VStr "cXV4eno") /\
  Sample.jane_record !! "verifiedDate" = None /\
  length (outbox Sample.pending) = 1%nat /\
  verify_submission "https://ui.example" Sample.env2
    (Sample.token_request "id1" "Zm9vYmFy") Sample.pending
  = (inr (redirect 302 "https://ui.example?verified=id1"
            "Your story has been verified! Thank you :)"), Sample.verified) /\
  get_submissions Sample.search (Sample.list_request ∅) Sample.verified
  = (inr {| statusCode := 200; location := None;
            rbody_of :=
              JsonListing
                [<["firstName" := VStr "Jane"]> (<["debt" := VNum 42000]>
                   (<["story" := VStr "Two cents."]>
                      (<["verifiedDate" := VStr "2020-04-02T08:30:00"]> ∅)))]
                1 (VNum 42000) |}, Sample.verified).
Proof. split_and!; compute_done. Qed.

(** * Further properties of the handlers *)

(** ** Building the record *)

Module Record.

Lemma first_part_prefix c s :
  s = PyStr.first_part c s \/ exists rest, s = PyStr.first_part c s +:+ String c rest.
Proof.
  unfold PyStr.first_part. induction s as [|a s IH]; simpl; [by left |].
  destruct (decide (a = c)) as [->|Hne]; [right; by exists s |].
  pose proof (PyStrFacts.split_not_nil c s).
  destruct (PyStr.split c s) as [|p ps]; [done |].
  destruct IH as [IH | [rest IH]]; [left | right; exists rest]; by rewrite IH at 1.
Qed.

Lemma built_dom e submission record :
  create_submission_record e submission = inr record ->
  dom record = list_to_set record_keys.
Proof.
  intros (? & ? & ? & ? & ? & _ & _ & _ & _ & _ & ->)%Creation.record_inv.
  rewrite !dom_insert_L, dom_empty_L. unfold record_keys. set_solver.
Qed.

End Record.

(** X1. [create_submission_record] returns a record exactly when the
    submission has a string [name], a [debt], a [story] and a string [email]
    that contains an ['@']; in every other case it raises. *)
Theorem record_built_exactly e submission :
  (exists record, create_submission_record e submission = inr record) <->
  (exists name_s email_s,
     submission !! "name" = Some (VStr name_s) /\
     is_Some (submission !! "debt") /\
     is_Some (submission !! "story") /\
     submission !! "email" = Some (VStr email_s) /\
     PyStr.has_char "@" email_s = true).
Proof.
  split.
  - intros [record Hrec].
    destruct (Creation.record_inv _ _ _ Hrec)
      as (name_s & debt & story & email_s & cleaned & Hn & Hd & Hs & He & Hc & _).
    exists name_s, email_s. split_and!; eauto.
    destruct (PyStr.has_char "@" email_s) eqn:Hat; [done |].
    rewrite (CleanEmail.clean_email_undefined _ Hat) in Hc. done.
  - intros (name_s & email_s & Hn & [debt Hd] & [story Hs] & He & Hat).
    destruct (CleanEmail.clean_email_defined _ Hat) as [cleaned Hc].
    destruct (Creation.record_built e _ _ _ _ _ _ Hn Hd Hs He Hc) as (record & Hrec & _).
    eauto.
Qed.

(** X2. A record that was built has exactly the nine keys of the dict
    display, so no [verifiedDate]; [name], [debt], [story] and [email] are the
    submitted values, [createdDate] is the clock reading, and both tokens are
    strings without a dash. *)
Theorem record_fields e submission record :
  create_submission_record e submission = inr record ->
  dom record = list_to_set record_keys /\
  record !! "verifiedDate" = None /\
  record !! "name" = submission !! "name" /\
  record !! "debt" = submission !! "debt" /\
  record !! "story" = submission !! "story" /\
  record !! "email" = submission !! "email" /\
  record !! "createdDate" = Some (VStr (now e)) /\
  (exists tv td,
     record !! "tokenVerify" = Some (VStr tv) /\
     record !! "tokenDelete" = Some (VStr td) /\
     PyStr.has_char "-" tv = false /\ PyStr.has_char "-" td = false).
Proof.
  intros Hrec. split; [by apply (Record.built_dom e submission) |].
  destruct (Creation.record_inv _ _ _ Hrec)
    as (name_s & debt & story & email_s & cleaned & Hn & Hd & Hs & He & Hc & ->).
  rewrite Hn, Hd, Hs, He. split_and!; try done.
  exists (PyStr.remove "-" (token_verify e)), (PyStr.remove "-" (token_delete e)).
  split_and!; try done; apply PyStrFacts.has_char_false, PyStrFacts.remove_sep.
Qed.

(** X3. [firstName] is the part of [name] before its first space: it has no
    space, and [name] is either [firstName] itself or [firstName], a space
    and a rest.  A name that starts with a space has an empty [firstName]. *)
Theorem first_name_is_first_word e submission record name_s :
  create_submission_record e submission = inr record ->
  submission !! "name" = Some (VStr name_s) ->
  exists first,
    record !! "firstName" = Some (VStr first) /\
    PyStr.has_char " " first = false /\
    (name_s = first \/ exists rest, name_s = first +:+ " " +:+ rest) /\
    (forall rest, name_s = String " " rest -> first = "").
Proof.
  intros Hrec Hname.
  destruct (Creation.record_inv _ _ _ Hrec)
    as (name_s' & debt & story & email_s & cleaned & Hn & _ & _ & _ & _ & ->).
  rewrite Hname in Hn. injection Hn as <-.
  exists (PyStr.first_part " " name_s). split_and!.
  - done.
  - apply PyStrFacts.has_char_false, PyStrFacts.first_part_sep.
  - apply Record.first_part_prefix.
  - by intros rest ->.
Qed.

(** X4. A creation request whose record cannot be built raises and leaves
    the store and the outbox as they were, at both entry points: [ValueError]
    for a body that is not read, [KeyError] for a missing [name], [debt],
    [story] or [email] (the name, if there, being a string), and
    [AttributeError] for a [name] that is not a string. *)
Theorem creation_faults_write_nothing e ev w :
  (body ev = None ->
   post_submission e ev w = (inl ValueError, w) /\
   post_verified_submission e ev w = (inl ValueError, w)) /\
  (forall submission k,
     body ev = Some submission ->
     k ∈ ["name"; "debt"; "story"; "email"] ->
     submission !! k = None ->
     (forall v, submission !! "name" = Some v -> exists s, v = VStr s) ->
     post_submission e ev w = (inl KeyError, w) /\
     post_verified_submission e ev w = (inl KeyError, w)) /\
  (forall submission v,
     body ev = Some submission ->
     submission !! "name" = Some v ->
     (forall s, v <> VStr s) ->
     post_submission e ev w = (inl AttributeError, w) /\
     post_verified_submission e ev w = (inl AttributeError, w)).
Proof.
  split_and!.
  - intros Hbody.
    unfold post_submission, post_verified_submission, bind, lift, loads_body.
    by rewrite Hbody.
  - intros submission k Hbody Hk Hmiss Hname.
    apply (Creation.no_record_raises e ev w submission); [done |].
    unfold create_submission_record, item.
    destruct (submission !! "name") as [name|] eqn:Hn; [|done].
    destruct (Hname name eq_refl) as [s ->]. simpl.
    destruct (submission !! "debt") as [debt|] eqn:Hd; [|done].
    destruct (submission !! "story") as [story|] eqn:Hs; [|done].
    destruct (submission !! "email") as [email|] eqn:He; [|done].
    rewrite !elem_of_cons, elem_of_nil in Hk.
    destruct Hk as [->|[->|[->|[->|[]]]]]; congruence.
  - intros submission v Hbody Hn Hv.
    apply (Creation.no_record_raises e ev w submission); [done |].
    unfold create_submission_record, item. rewrite Hn.
    destruct v as [|s|n]; [done | by destruct (Hv s) | done].
Qed.

(** ** Pending creation, its mail and its links *)

Module Pending.

Lemma count_nonzero (v : val) (d : gmap string (gmap string val)) :
  size (filter (fun kv => kv.2 !! "emailClean" = Some v) d) <> 0%nat ->
  exists i di, d !! i = Some di /\ di !! "emailClean" = Some v.
Proof.
  rewrite map_size_empty_iff. intros (i & di & Hi)%map_choose.
  apply map_lookup_filter_Some in Hi as [Hi Hv]. by exists i, di.
Qed.

(** The mail that [send_email] queues for a record that was built. *)
Lemma send_email_built e submission record id api_url w :
  create_submission_record e submission = inr record ->
  send_email record id api_url w
  = (inr tt,
     {| db := db w;
        outbox := outbox w ++
          [confirmation_mail (default VNone (submission !! "email")) api_url id
             (PyStr.remove "-" (token_verify e))
             (PyStr.remove "-" (token_delete e))] |}).
Proof.
  intros (? & ? & ? & ? & ? & _ & _ & _ & He & _ & ->)%Creation.record_inv.
  rewrite He. reflexivity.
Qed.

(** A pending creation that meets no record with its [emailClean]. *)
Lemma post_submission_new e ev w submission record :
  body ev = Some submission ->
  create_submission_record e submission = inr record ->
  (forall id d, db w !! id = Some d -> d !! "emailClean" <> record !! "emailClean") ->
  post_submission e ev w
  = (inr {| statusCode := 200; location := None; rbody_of := JsonId (new_id e) |},
     {| db := <[new_id e := record]> (db w);
        outbox := outbox w ++
          [confirmation_mail (default VNone (submission !! "email"))
             (get_api_url ev) (new_id e)
             (PyStr.remove "-" (token_verify e))
             (PyStr.remove "-" (token_delete e))] |}).
Proof.
  intros Hbody Hrec Hnew.
  destruct (Creation.record_emailClean _ _ _ Hrec) as (email_s & cleaned & _ & _ & Hclean).
  rewrite (Creation.post_submission_built _ _ _ _ _ _ Hbody Hrec Hclean).
  destruct (Nat.eqb_spec
    (size (filter (fun kv => kv.2 !! "emailClean" = Some (VStr cleaned)) (db w))) 0)
    as [_|Hpos].
  - simpl. by rewrite (send_email_built e submission).
  - destruct (count_nonzero _ _ Hpos) as (i & di & Hi & Hv).
    destruct (Hnew i di Hi). congruence.
Qed.

Lemma ends_with_app c a b : b <> "" -> ends_with c (a +:+ b) = ends_with c b.
Proof.
  intros Hb. induction a as [|x a IH]; [done |].
  change (String x a +:+ b) with (String x (a +:+ b)).
  destruct (a +:+ b) as [|y r] eqn:Hab; [|exact IH].
  destruct a; [|done]. by destruct b.
Qed.

End Pending.

(** X5. A pending creation whose record is built and whose [emailClean] no
    stored record has answers 200 with the id that the store assigned, stores
    the record under that id, and sends one mail: to the address as it was
    entered, with the subject "Confirm Your Story" and with the verify and
    the delete link of the record in the fixed text. *)
Theorem pending_creation_stores_and_mails e ev w submission record :
  body ev = Some submission ->
  create_submission_record e submission = inr record ->
  (forall id d, db w !! id = Some d -> d !! "emailClean" <> record !! "emailClean") ->
  exists to tv td,
    submission !! "email" = Some to /\
    record !! "tokenVerify" = Some (VStr tv) /\
    record !! "tokenDelete" = Some (VStr td) /\
    post_submission e ev w
    = (inr {| statusCode := 200; location := None; rbody_of := JsonId (new_id e) |},
       {| db := <[new_id e := record]> (db w);
          outbox := outbox w ++
            [{| destination := to; subject := "Confirm Your Story";
                html := mail_opening
                        +:+ action_url (get_api_url ev) (new_id e) "verify" tv
                        +:+ mail_between
                        +:+ action_url (get_api_url ev) (new_id e) "delete" td
                        +:+ mail_closing |}] |}).
Proof.
  intros Hbody Hrec Hnew.
  rewrite (Pending.post_submission_new _ _ _ _ _ Hbody Hrec Hnew).
  destruct (Creation.record_tokens _ _ _ Hrec) as (Htv & Htd & _).
  destruct (Creation.record_emailClean _ _ _ Hrec) as (email_s & ? & He & _).
  exists (VStr email_s), (PyStr.remove "-" (token_verify e)),
    (PyStr.remove "-" (token_delete e)).
  by rewrite He.
Qed.

(** X6. With a stage that is not empty and does not end in a slash, the link
    of the mail for an action is
    [https://<domainName>/<stage>/submissions/<id>/<action>?token=<token>]. *)
Theorem mail_link_shape ev id action token :
  stage ev <> "" ->
  ends_with "/" (stage ev) = false ->
  action_url (get_api_url ev) id action token
  = "https://" +:+ domainName ev +:+ "/" +:+ stage ev +:+ "/submissions/" +:+ id
    +:+ "/" +:+ action +:+ "?token=" +:+ token.
Proof.
  intros Hne Hslash. unfold action_url, path_join, get_api_url.
  replace ("https://" +:+ domainName ev +:+ "/" +:+ stage ev)
    with (("https://" +:+ domainName ev +:+ "/") +:+ stage ev)
    by (rewrite !PyStrFacts.app_assoc; done).
  rewrite (Pending.ends_with_app _ _ _ Hne), Hslash. simpl.
  rewrite !PyStrFacts.app_assoc. done.
Qed.

(** X7. The links of the mail work: after a pending creation that stored the
    record, a verify request with the id and the [tokenVerify] of the record
    is answered 302 and leaves the record as [mark_verified] makes it, and a
    delete request with the id and the [tokenDelete] is answered 200 and
    removes the record. *)
Theorem mailed_links_work UI_HOST e e' ev ev_v ev_d w submission record tv td :
  body ev = Some submission ->
  create_submission_record e submission = inr record ->
  (forall id d, db w !! id = Some d -> d !! "emailClean" <> record !! "emailClean") ->
  record !! "tokenVerify" = Some (VStr tv) ->
  record !! "tokenDelete" = Some (VStr td) ->
  carries ev_v (new_id e) tv ->
  carries ev_d (new_id e) td ->
  let w1 := (post_submission e ev w).2 in
  db w1 !! new_id e = Some record /\
  verify_submission UI_HOST e' ev_v w1
  = (inr (redirect 302 (UI_HOST +:+ "?verified=" +:+ new_id e)
            "Your story has been verified! Thank you :)"),
     with_db w1 (<[new_id e := mark_verified e' record]> (db w1))) /\
  delete_submission ev_d w1
  = (inr (respond 200 "Your story has been deleted!"),
     with_db w1 (delete (new_id e) (db w1))).
Proof.
  intros Hbody Hrec Hnew Htv Htd Hv Hd w1.
  assert (db w1 !! new_id e = Some record) as Hdb.
  { subst w1. rewrite (Pending.post_submission_new _ _ _ _ _ Hbody Hrec Hnew).
    apply lookup_insert_eq. }
  split_and!; [done | |].
  - rewrite (TokenVerifier.verify_at _ _ _ _ _ _ _ _ Hv Hdb Htv). cbv zeta.
    rewrite (TokenVerifier.truthy_token tv) by apply Hv. simpl.
    rewrite bool_decide_eq_false_2 by (intros H; by apply H).
    unfold verified_doc, mark_verified. by rewrite insert_insert_ne.
  - rewrite (TokenVerifier.delete_at _ _ _ _ _ _ Hd Hdb Htd).
    rewrite (TokenVerifier.truthy_token td) by apply Hd. simpl.
    by rewrite bool_decide_eq_false_2 by (intros H; by apply H).
Qed.

(** X8. Two pending submissions whose e-mail addresses normalise to the same
    string: whatever the first one met, the second is answered 409 and
    changes neither the store nor the outbox. *)
Theorem same_address_twice e1 e2 ev1 ev2 w s1 s2 r1 r2 email1 email2 :
  body ev1 = Some s1 -> create_submission_record e1 s1 = inr r1 ->
  body ev2 = Some s2 -> create_submission_record e2 s2 = inr r2 ->
  s1 !! "email" = Some (VStr email1) ->
  s2 !! "email" = Some (VStr email2) ->
  clean_email email1 = clean_email email2 ->
  post_submission e2 ev2 (post_submission e1 ev1 w).2
  = (inr (respond 409
            "Your story has already been submitted. Please check your email :)"),
     (post_submission e1 ev1 w).2).
Proof.
  intros Hb1 Hr1 Hb2 Hr2 He1 He2 Hsame.
  assert (r1 !! "emailClean" = r2 !! "emailClean") as Hclean.
  { destruct (Creation.record_emailClean _ _ _ Hr1) as (x1 & c1 & Hx1 & Hc1 & ->).
    destruct (Creation.record_emailClean _ _ _ Hr2) as (x2 & c2 & Hx2 & Hc2 & ->).
    congruence. }
  destruct (Creation.record_emailClean _ _ _ Hr1) as (x1 & c1 & _ & _ & Hv1).
  rewrite (Creation.post_submission_built _ _ _ _ _ _ Hb1 Hr1 Hv1).
  destruct (Nat.eqb_spec
    (size (filter (fun kv => kv.2 !! "emailClean" = Some (VStr c1)) (db w))) 0)
    as [_|Hpos]; simpl.
  - apply (Creation.post_submission_conflict _ _ _ _ _ (new_id e1) r1 Hb2 Hr2);
      [|done].
    rewrite Creation.send_email_db. apply lookup_insert_eq.
  - destruct (Pending.count_nonzero _ _ Hpos) as (i & di & Hi & Hv).
    apply (Creation.post_submission_conflict _ _ _ _ _ i di Hb2 Hr2 Hi). congruence.
Qed.

(** X9. Deleting a record frees its address: in a store with at most one
    record per [emailClean], a pending submission with the [emailClean] of a
    stored record is answered 409, and once that record has been deleted with
    its token the same submission is answered 200 and stored. *)
Theorem delete_frees_address e ev ev_d w id token d submission record :
  unique_emailClean (db w) ->
  db w !! id = Some d ->
  d !! "tokenDelete" = Some (VStr token) ->
  carries ev_d id token ->
  body ev = Some submission ->
  create_submission_record e submission = inr record ->
  d !! "emailClean" = record !! "emailClean" ->
  (post_submission e ev w).1
  = inr (respond 409
           "Your story has already been submitted. Please check your email :)") /\
  (post_submission e ev (delete_submission ev_d w).2).1
  = inr {| statusCode := 200; location := None; rbody_of := JsonId (new_id e) |} /\
  db (post_submission e ev (delete_submission ev_d w).2).2
  = <[new_id e := record]> (delete id (db w)).
Proof.
  intros Huniq Hdb Htok Hcar Hbody Hrec Hsame.
  rewrite (Creation.post_submission_conflict _ _ _ _ _ _ _ Hbody Hrec Hdb Hsame).
  rewrite (TokenVerifier.delete_at _ _ _ _ _ _ Hcar Hdb Htok).
  rewrite (TokenVerifier.truthy_token token) by apply Hcar. simpl.
  rewrite bool_decide_eq_false_2 by (intros H; by apply H). simpl.
  rewrite (Pending.post_submission_new _ _ _ _ _ Hbody Hrec); [done |].
  intros j dj Hj Hv. simpl in Hj.
  apply lookup_delete_Some in Hj as [Hne Hj].
  destruct (Creation.record_emailClean _ _ _ Hrec) as (? & cleaned & _ & _ & Hc).
  apply Hne. apply (Huniq id j d dj (VStr cleaned)); congruence.
Qed.

(** X10. A creation call touches the store only at the id that the store
    assigns; [post_submission] sends at most one mail and
    [post_verified_submission] never sends any. *)
Theorem creation_touches_only_new_id e ev w :
  (forall j, j <> new_id e ->
     db (post_submission e ev w).2 !! j = db w !! j /\
     db (post_verified_submission e ev w).2 !! j = db w !! j) /\
  (outbox (post_submission e ev w).2 = outbox w \/
   exists m, outbox (post_submission e ev w).2 = outbox w ++ [m]) /\
  outbox (post_verified_submission e ev w).2 = outbox w.
Proof.
  destruct (body ev) as [submission|] eqn:Hbody; cycle 1.
  { unfold post_submission, post_verified_submission, bind, lift, loads_body.
    rewrite Hbody. simpl. by auto. }
  destruct (create_submission_record e submission) as [x|record] eqn:Hrec.
  { destruct (Creation.no_record_raises e ev w _ _ Hbody Hrec) as [-> ->].
    simpl. by auto. }
  rewrite (Creation.post_verified_submission_built _ _ _ _ _ Hbody Hrec).
  destruct (Creation.record_emailClean _ _ _ Hrec) as (? & cleaned & _ & _ & Hc).
  rewrite (Creation.post_submission_built _ _ _ _ _ _ Hbody Hrec Hc).
  destruct (negb _); simpl.
  - split_and!; [|by left|done]. intros j Hj. by rewrite lookup_insert_ne.
  - rewrite (Pending.send_email_built e submission) by done. simpl.
    split_and!; [|right; by eexists|done].
    intros j Hj. by rewrite !lookup_insert_ne.
Qed.

(** ** The token verifier, for every request *)

Module Steps.

Lemma verify_ok UI_HOST e ev w id token d :
  carries ev id token ->
  db w !! id = Some d ->
  d !! "tokenVerify" = Some (VStr token) ->
  verify_submission UI_HOST e ev w
  = (inr (redirect 302 (UI_HOST +:+ "?verified=" +:+ id)
            "Your story has been verified! Thank you :)"),
     with_db w (<[id := verified_doc e d]> (db w))).
Proof.
  intros Hcar Hdb Htok.
  rewrite (TokenVerifier.verify_at _ _ _ _ _ _ _ _ Hcar Hdb Htok). cbv zeta.
  rewrite (TokenVerifier.truthy_token token) by apply Hcar. cbn [negb].
  by rewrite bool_decide_eq_false_2 by (intros H; by apply H).
Qed.

Lemma delete_ok ev w id token d :
  carries ev id token ->
  db w !! id = Some d ->
  d !! "tokenDelete" = Some (VStr token) ->
  delete_submission ev w
  = (inr (respond 200 "Your story has been deleted!"), with_db w (delete id (db w))).
Proof.
  intros Hcar Hdb Htok.
  rewrite (TokenVerifier.delete_at _ _ _ _ _ _ Hcar Hdb Htok).
  rewrite (TokenVerifier.truthy_token token) by apply Hcar. cbn [negb].
  by rewrite bool_decide_eq_false_2 by (intros H; by apply H).
Qed.

End Steps.

Module Effects.

(** What [verify_submission] can do to the world. *)
Lemma verify_world UI_HOST e ev w :
  (verify_submission UI_HOST e ev w).2 = w \/
  exists id token d,
    carries ev id token /\
    db w !! id = Some d /\
    d !! "tokenVerify" = Some (VStr token) /\
    (verify_submission UI_HOST e ev w).2
    = with_db w (<[id := verified_doc e d]> (db w)).
Proof.
  destruct (read_submission_id ev) as [x|id] eqn:Hid.
  { left. unfold verify_submission, bind, lift. by rewrite Hid. }
  destruct (String.eqb_spec id "") as [->|Hne].
  { left. unfold verify_submission, bind, lift. by rewrite Hid. }
  destruct (read_token ev) as [x|[token|]] eqn:Htok;
    [left; unfold verify_submission, bind, lift;
     by rewrite Hid, (eqb_empty_false id Hne), Htok | |
     left; unfold verify_submission, bind, lift;
     by rewrite Hid, (eqb_empty_false id Hne), Htok].
  destruct (String.eqb_spec token "") as [->|Hne'].
  { left. unfold verify_submission, bind, lift.
    by rewrite Hid, (eqb_empty_false id Hne), Htok. }
  assert (carries ev id token) as Hcar by done.
  destruct (db w !! id) as [d|] eqn:Hdb;
    [|left; by rewrite (TokenVerifier.verify_absent _ _ _ _ _ _ Hcar Hdb)].
  destruct (d !! "tokenVerify") as [stored|] eqn:Hst; cycle 1.
  { left. unfold verify_submission, bind, lift, get_or, ES.get, if_not, item.
    by rewrite Hid, (eqb_empty_false id Hne), Htok, (eqb_empty_false token Hne'),
      Hdb, Hst. }
  rewrite (TokenVerifier.verify_at _ _ _ _ _ _ _ _ Hcar Hdb Hst). cbv zeta.
  destruct (negb (truthy stored)); [by left |].
  destruct (bool_decide_reflect (VStr token ≠ stored)) as [|Heq]; [by left |].
  right. exists id, token, d. apply dec_stable in Heq. by subst stored.
Qed.

(** What [delete_submission] can do to the world. *)
Lemma delete_world ev w :
  (delete_submission ev w).2 = w \/
  exists id token d,
    carries ev id token /\
    db w !! id = Some d /\
    d !! "tokenDelete" = Some (VStr token) /\
    (delete_submission ev w).2 = with_db w (delete id (db w)).
Proof.
  destruct (read_submission_id ev) as [x|id] eqn:Hid.
  { left. unfold delete_submission, bind, lift. by rewrite Hid. }
  destruct (String.eqb_spec id "") as [->|Hne].
  { left. unfold delete_submission, bind, lift. by rewrite Hid. }
  destruct (read_token ev) as [x|[token|]] eqn:Htok;
    [left; unfold delete_submission, bind, lift;
     by rewrite Hid, (eqb_empty_false id Hne), Htok | |
     left; unfold delete_submission, bind, lift;
     by rewrite Hid, (eqb_empty_false id Hne), Htok].
  destruct (String.eqb_spec token "") as [->|Hne'].
  { left. unfold delete_submission, bind, lift.
    by rewrite Hid, (eqb_empty_false id Hne), Htok. }
  assert (carries ev id token) as Hcar by done.
  destruct (db w !! id) as [d|] eqn:Hdb;
    [|left; by rewrite (TokenVerifier.delete_absent _ _ _ _ Hcar Hdb)].
  destruct (d !! "tokenDelete") as [stored|] eqn:Hst; cycle 1.
  { left. unfold delete_submission, bind, lift, get_or, ES.get, if_not, item.
    by rewrite Hid, (eqb_empty_false id Hne), Htok, (eqb_empty_false token Hne'),
      Hdb, Hst. }
  rewrite (TokenVerifier.delete_at _ _ _ _ _ _ Hcar Hdb Hst).
  destruct (negb (truthy stored)); [by left |].
  destruct (bool_decide_reflect (VStr token ≠ stored)) as [|Heq]; [by left |].
  right. exists id, token, d. apply dec_stable in Heq. by subst stored.
Qed.

Lemma verified_doc_mark e d : verified_doc e d = mark_verified e d.
Proof. unfold verified_doc, mark_verified. by rewrite insert_insert_ne. Qed.

End Effects.

(** X11. [verify_submission] changes the world only when the request carries
    the id of a stored record together with that record's [tokenVerify]; it
    then answers 302 and rewrites that one record as [mark_verified] does.
    In every other case, whatever it answers or raises, the store and the
    outbox stay as they are. *)
Theorem verify_changes_need_token UI_HOST e ev w :
  (verify_submission UI_HOST e ev w).2 = w \/
  exists id token d,
    carries ev id token /\
    db w !! id = Some d /\
    d !! "tokenVerify" = Some (VStr token) /\
    verify_submission UI_HOST e ev w
    = (inr (redirect 302 (UI_HOST +:+ "?verified=" +:+ id)
              "Your story has been verified! Thank you :)"),
       with_db w (<[id := mark_verified e d]> (db w))).
Proof.
  destruct (Effects.verify_world UI_HOST e ev w)
    as [Hsame | (id & token & d & Hcar & Hdb & Htok & _)]; [by left | right].
  exists id, token, d. split_and!; try done.
  by rewrite (Steps.verify_ok _ _ _ _ _ _ _ Hcar Hdb Htok), Effects.verified_doc_mark.
Qed.

(** X12. [delete_submission] changes the world only when the request carries
    the id of a stored record together with that record's [tokenDelete]; it
    then answers 200 and removes that one record.  In every other case the
    store and the outbox stay as they are; it never adds or rewrites a
    record and never sends mail. *)
Theorem delete_changes_need_token ev w :
  (delete_submission ev w).2 = w \/
  exists id token d,
    carries ev id token /\
    db w !! id = Some d /\
    d !! "tokenDelete" = Some (VStr token) /\
    delete_submission ev w
    = (inr (respond 200 "Your story has been deleted!"),
       with_db w (delete id (db w))).
Proof.
  destruct (Effects.delete_world ev w)
    as [Hsame | (id & token & d & Hcar & Hdb & Htok & _)]; [by left | right].
  exists id, token, d. split_and!; try done.
  by apply (Steps.delete_ok _ _ _ token d).
Qed.

(** X23. Once the stored token of an action is null (or empty), the action
    is answered as already done, for every token that is presented, and the
    world stays as it is: 302 "already verified" to [UI_HOST?verified=<id>]
    for verify, 200 "already deleted" for delete, which leaves the record in
    the store. *)
Theorem completed_action_is_idempotent UI_HOST e ev w id token d stored :
  carries ev id token ->
  db w !! id = Some d ->
  truthy stored = false ->
  (d !! "tokenVerify" = Some stored ->
   verify_submission UI_HOST e ev w
   = (inr (redirect 302 (UI_HOST +:+ "?verified=" +:+ id)
             "Your story has already been verified! Thank you :)"), w)) /\
  (d !! "tokenDelete" = Some stored ->
   delete_submission ev w
   = (inr (respond 200 "Your story has already been deleted! Thank you :)"), w)).
Proof.
  intros Hcar Hdb Hfalse. split; intros Hst.
  - rewrite (TokenVerifier.verify_at _ _ _ _ _ _ _ _ Hcar Hdb Hst). cbv zeta.
    by rewrite Hfalse.
  - rewrite (TokenVerifier.delete_at _ _ _ _ _ _ Hcar Hdb Hst). by rewrite Hfalse.
Qed.

(** X24. A verified record is final for [verify_submission]: a stored record
    whose [tokenVerify] is null is left exactly as it is by every verify
    request, so its [verifiedDate] keeps its first value; and a record that a
    verify request does rewrite has a null [tokenVerify] afterwards. *)
Theorem verified_record_is_final UI_HOST e ev w j d :
  db w !! j = Some d ->
  (d !! "tokenVerify" = Some VNone ->
   db (verify_submission UI_HOST e ev w).2 !! j = Some d) /\
  (exists d', db (verify_submission UI_HOST e ev w).2 !! j = Some d' /\
     (d' = d \/ d' !! "tokenVerify" = Some VNone /\
                d' !! "verifiedDate" = Some (VStr (now e)))).
Proof.
  intros Hj.
  destruct (Effects.verify_world UI_HOST e ev w)
    as [-> | (id & token & d0 & Hcar & Hdb & Htok & ->)]; [by eauto |].
  simpl. destruct (decide (id = j)) as [->|Hne].
  - rewrite lookup_insert_eq. rewrite Hj in Hdb. injection Hdb as <-. split.
    + intros Hnull. congruence.
    + exists (verified_doc e d). split; [done | right]. unfold verified_doc.
      by rewrite lookup_insert_eq, lookup_insert_ne, lookup_insert_eq.
  - rewrite lookup_insert_ne by done. by eauto.
Qed.

(** X25. Verifying and deleting keep the rule of one record per
    [emailClean]: if the store has at most one record for each [emailClean]
    before a verify or a delete request, it has so after it. *)
Theorem token_actions_keep_emailClean_unique UI_HOST e ev w :
  unique_emailClean (db w) ->
  unique_emailClean (db (verify_submission UI_HOST e ev w).2) /\
  unique_emailClean (db (delete_submission ev w).2).
Proof.
  intros Huniq. split.
  - destruct (Effects.verify_world UI_HOST e ev w)
      as [-> | (id & token & d0 & Hcar & Hdb & Htok & ->)]; [done |].
    simpl. intros i j di dj v Hi Hj Hvi Hvj.
    assert (forall k dk, <[id := verified_doc e d0]> (db w) !! k = Some dk ->
              exists dk', db w !! k = Some dk' /\
                          dk' !! "emailClean" = dk !! "emailClean") as Hback.
    { intros k dk Hk. destruct (decide (id = k)) as [->|Hne].
      - rewrite lookup_insert_eq in Hk. injection Hk as <-. exists d0.
        split; [done |]. unfold verified_doc. by rewrite !lookup_insert_ne.
      - rewrite lookup_insert_ne in Hk by done. by exists dk. }
    destruct (Hback i di Hi) as (di' & Hi' & Hei).
    destruct (Hback j dj Hj) as (dj' & Hj' & Hej).
    apply (Huniq i j di' dj' v); congruence.
  - destruct (Effects.delete_world ev w)
      as [-> | (id & token & d0 & Hcar & Hdb & Htok & ->)]; [done |].
    simpl. intros i j di dj v Hi Hj Hvi Hvj.
    apply lookup_delete_Some in Hi as [_ Hi]. apply lookup_delete_Some in Hj as [_ Hj].
    by apply (Huniq i j di dj v).
Qed.

(** X13. The checks on the request come before any access to the store, in
    this order, for verify and for delete alike: null path parameters raise
    [TypeError], a missing [submissionId] raises [KeyError], an empty one is
    answered 400 "Submission id missing" whatever the query string is, and,
    with an id, a token that is absent or empty is answered 400 "Token
    missing" whether or not the id is stored. *)
Theorem request_validation UI_HOST e ev w :
  (pathParameters ev = None ->
   verify_submission UI_HOST e ev w = (inl TypeError, w) /\
   delete_submission ev w = (inl TypeError, w)) /\
  (forall params,
     pathParameters ev = Some params -> params !! "submissionId" = None ->
     verify_submission UI_HOST e ev w = (inl KeyError, w) /\
     delete_submission ev w = (inl KeyError, w)) /\
  (forall params,
     pathParameters ev = Some params -> params !! "submissionId" = Some "" ->
     verify_submission UI_HOST e ev w = (inr (respond 400 "Submission id missing"), w) /\
     delete_submission ev w = (inr (respond 400 "Submission id missing"), w)) /\
  (forall params id,
     pathParameters ev = Some params -> params !! "submissionId" = Some id ->
     id <> "" ->
     queryStringParameters ev = QAbsent \/
     (exists q, queryStringParameters ev = QParams q /\
                (q !! "token" = None \/ q !! "token" = Some "")) ->
     verify_submission UI_HOST e ev w = (inr (respond 400 "Token missing"), w) /\
     delete_submission ev w = (inr (respond 400 "Token missing"), w)).
Proof.
  split_and!.
  - intros Hp. unfold verify_submission, delete_submission, bind, lift,
      read_submission_id. by rewrite Hp.
  - intros params Hp Hid. unfold verify_submission, delete_submission, bind, lift,
      read_submission_id, item. by rewrite Hp, Hid.
  - intros params Hp Hid. apply MissingParts.missing_id.
    unfold read_submission_id, item. by rewrite Hp, Hid.
  - intros params id Hp Hid Hne Hq.
    assert (read_submission_id ev = inr id) as Hread
      by (unfold read_submission_id, item; by rewrite Hp, Hid).
    destruct Hq as [Hq | (q & Hq & Htok)].
    + apply (MissingParts.missing_token _ _ _ _ id None); auto.
      unfold read_token. by rewrite Hq.
    + apply (MissingParts.missing_token _ _ _ _ id (q !! "token")); auto.
      unfold read_token. by rewrite Hq.
Qed.

(** X14. A request that carries an id which the store does not hold is
    answered 404, with the message of the action, whatever the token is; the
    world is unchanged. *)
Theorem unknown_id_not_found UI_HOST e ev w id token :
  carries ev id token ->
  db w !! id = None ->
  verify_submission UI_HOST e ev w = (inr (respond 404 "Story not found"), w) /\
  delete_submission ev w
  = (inr (respond 404 "Story not found. Perhaps it has already been deleted!"), w).
Proof.
  intros Hcar Hdb. split.
  - by apply (TokenVerifier.verify_absent _ _ _ _ id token).
  - by apply (TokenVerifier.delete_absent _ _ id token).
Qed.

(** X15. A record created at the pre-verified entry point is verified from
    the start: it is stored with [tokenVerify] null, with [createdDate] the
    reading of the clock when the record was built and [verifiedDate] the
    next reading, otherwise as it was built, and no mail is sent.  A verify
    request for it is answered "already verified" whatever its token, and its
    [tokenDelete] deletes it. *)
Theorem pre_verified_is_verified UI_HOST e e' ev ev_v ev_d w submission record token td :
  body ev = Some submission ->
  create_submission_record e submission = inr record ->
  carries ev_v (new_id e) token ->
  record !! "tokenDelete" = Some (VStr td) ->
  carries ev_d (new_id e) td ->
  let w1 := (post_verified_submission e ev w).2 in
  outbox w1 = outbox w /\
  (exists d,
     db w1 !! new_id e = Some d /\
     d !! "tokenVerify" = Some VNone /\
     d !! "createdDate" = Some (VStr (now e)) /\
     d !! "verifiedDate" = Some (VStr (now_next e)) /\
     forall k, k <> "tokenVerify" -> k <> "verifiedDate" -> d !! k = record !! k) /\
  verify_submission UI_HOST e' ev_v w1
  = (inr (redirect 302 (UI_HOST +:+ "?verified=" +:+ new_id e)
            "Your story has already been verified! Thank you :)"), w1) /\
  delete_submission ev_d w1
  = (inr (respond 200 "Your story has been deleted!"),
     with_db w1 (delete (new_id e) (db w1))).
Proof.
  intros Hbody Hrec Hv Htd Hd w1. subst w1.
  rewrite (Creation.post_verified_submission_built _ _ _ _ _ Hbody Hrec).
  cbn [snd].
  set (w1 := with_db w (<[new_id e := mark_verified (later e) record]> (db w))).
  assert (db w1 !! new_id e = Some (mark_verified (later e) record)) as Hdb
    by apply lookup_insert_eq.
  assert (mark_verified (later e) record !! "tokenVerify" = Some VNone) as Hnull
    by (unfold mark_verified; by rewrite lookup_insert_ne, lookup_insert_eq).
  assert (mark_verified (later e) record !! "tokenDelete" = Some (VStr td)) as Hdel
    by (unfold mark_verified; by rewrite !lookup_insert_ne).
  assert (record !! "createdDate" = Some (VStr (now e))) as Hcreated.
  { by destruct (Creation.record_inv _ _ _ Hrec)
      as (? & ? & ? & ? & ? & _ & _ & _ & _ & _ & ->). }
  split_and!; [done | | |].
  - exists (mark_verified (later e) record). split_and!; [done | done | | |].
    + unfold mark_verified. by rewrite !lookup_insert_ne.
    + unfold mark_verified. by rewrite lookup_insert_eq.
    + intros k ? ?. unfold mark_verified. by rewrite !lookup_insert_ne.
  - by rewrite (TokenVerifier.verify_at _ _ _ _ _ _ _ _ Hv Hdb Hnull).
  - by rewrite (Steps.delete_ok _ _ _ _ _ Hd Hdb Hdel).
Qed.

(** X16. Verification does not use up the delete token: a record that has
    just been verified is deleted by its [tokenDelete], and the store is then
    the one that deleting it unverified would have left.  In the other order,
    a record that has been deleted cannot be verified: the answer is 404. *)
Theorem verify_and_delete_in_either_order UI_HOST e ev_v ev_d w id tv td d :
  carries ev_v id tv ->
  carries ev_d id td ->
  db w !! id = Some d ->
  d !! "tokenVerify" = Some (VStr tv) ->
  d !! "tokenDelete" = Some (VStr td) ->
  delete_submission ev_d (verify_submission UI_HOST e ev_v w).2
  = (inr (respond 200 "Your story has been deleted!"), with_db w (delete id (db w))) /\
  verify_submission UI_HOST e ev_v (delete_submission ev_d w).2
  = (inr (respond 404 "Story not found"), with_db w (delete id (db w))).
Proof.
  intros Hv Hd Hdb Htv Htd. split.
  - rewrite (Steps.verify_ok _ _ _ _ _ _ _ Hv Hdb Htv). cbn [snd].
    set (w1 := with_db w (<[id := verified_doc e d]> (db w))).
    assert (db w1 !! id = Some (verified_doc e d)) as Hdb1 by apply lookup_insert_eq.
    assert (verified_doc e d !! "tokenDelete" = Some (VStr td)) as Htd1
      by (unfold verified_doc; by rewrite !lookup_insert_ne).
    rewrite (Steps.delete_ok _ _ _ _ _ Hd Hdb1 Htd1).
    unfold w1, with_db. simpl. by rewrite delete_insert_eq.
  - rewrite (Steps.delete_ok _ _ _ _ _ Hd Hdb Htd). cbn [snd].
    apply (TokenVerifier.verify_absent _ _ _ _ id tv); [done |].
    apply lookup_delete_eq.
Qed.

(** ** The listing, for every request *)

Module Page.

(** The ids that a request pins. *)
Lemma get_submissions_form ES_search ev w :
  let results :=
    ES_search (db w) (read_from (query_params ev)) (read_limit (query_params ev)) in
  let pinned :=
    match read_include (query_params ev) with
    | Some ids => pinned_ids (db w) (list_to_set (page_ids results)) ids
    | None => []
    end in
  get_submissions ES_search ev w
  = (inr {| statusCode := 200; location := None;
            rbody_of := JsonListing
                          (pinned_docs (db w) pinned ++ (hit_source <$> hits results))
                          (total_value results) (total_debt results) |}, w).
Proof.
  intros results pinned. unfold get_submissions, bind. fold results. subst pinned.
  destruct (read_include (query_params ev)) as [ids|]; [|done].
  by rewrite Listing.include_loop_pinned.
Qed.

Lemma read_include_length params ids :
  read_include params = Some ids -> (length ids <= 3)%nat.
Proof.
  unfold read_include. destruct (params !! "include") as [s|]; [|done].
  destruct (String.eqb s ""); [done |]. intros [= <-]. rewrite length_take. lia.
Qed.

Lemma remove_dups_length (l : list string) : (length (remove_dups l) <= length l)%nat.
Proof.
  induction l as [|x l IH]; simpl; [done |].
  destruct (decide_rel elem_of x l); simpl; lia.
Qed.

Lemma pinned_ids_length d seen ids : (length (pinned_ids d seen ids) <= length ids)%nat.
Proof.
  unfold pinned_ids. etrans; [apply remove_dups_length |].
  rewrite length_reverse. apply length_filter.
Qed.

Lemma pinned_ids_none d seen ids :
  (forall id, id ∈ ids -> id ∈ seen \/ d !! id = None) -> pinned_ids d seen ids = [].
Proof.
  induction ids as [|id ids IH]; intros Hall; [done |].
  rewrite Listing.pinned_ids_skip by (apply Hall; by left).
  apply IH. intros ? ?. apply Hall. by right.
Qed.

Lemma pinned_docs_length d ids : (length (pinned_docs d ids) <= length ids)%nat.
Proof.
  induction ids as [|id ids IH]; [done |].
  change (pinned_docs d (id :: ids))
    with (match restrict_fields <$> d !! id with
          | Some y => y :: pinned_docs d ids
          | None => pinned_docs d ids
          end).
  destruct (d !! id); simpl; lia.
Qed.

Lemma pinned_docs_elem d ids doc :
  doc ∈ pinned_docs d ids -> exists source, doc = restrict_fields source.
Proof.
  unfold pinned_docs. intros (id & _ & Hdoc)%list_elem_of_omap.
  destruct (d !! id) as [source|]; [|done]. injection Hdoc as <-. by exists source.
Qed.

Lemma restrict_fields_dom source :
  dom (restrict_fields source) ⊆ list_to_set fields_to_output.
Proof.
  intros k [v Hk]%elem_of_dom. rewrite Listing.restrict_fields_lookup in Hk.
  destruct (decide (k ∈ fields_to_output)); [|done]. by apply elem_of_list_to_set.
Qed.

End Page.

(** X17. Without an [include] parameter, with an empty one, or when each of
    its first three ids is in the page or unknown to the store, the listing
    is the page of the search: the sources of the hits, in their order. *)
Theorem listing_is_the_page ES_search ev w :
  let results :=
    ES_search (db w) (read_from (query_params ev)) (read_limit (query_params ev)) in
  query_params ev !! "include" = None \/
  query_params ev !! "include" = Some "" \/
  (exists s, query_params ev !! "include" = Some s /\
     forall id, id ∈ take 3 (PyStr.split "," s) ->
       id ∈ page_ids results \/ db w !! id = None) ->
  get_submissions ES_search ev w
  = (inr {| statusCode := 200; location := None;
            rbody_of := JsonListing (hit_source <$> hits results)
                          (total_value results) (total_debt results) |}, w).
Proof.
  intros results Hinc. rewrite Page.get_submissions_form. fold results.
  unfold read_include.
  destruct Hinc as [-> | [-> | (s & -> & Hall)]]; [done | done |].
  destruct (String.eqb s ""); [done |].
  rewrite Page.pinned_ids_none; [done |].
  intros id Hid. destruct (Hall id Hid) as [Hin | Hnone]; [left | by right].
  by apply elem_of_list_to_set.
Qed.

(** X18. The include override never shows more than the output fields: when
    the hits of the search have only the four output fields, so has every
    entry of the listing, pinned ones included; in particular no entry has
    an [email], an [emailClean], a [tokenVerify] or a [tokenDelete]. *)
Theorem listing_shows_only_output_fields ES_search ev w :
  let results :=
    ES_search (db w) (read_from (query_params ev)) (read_limit (query_params ev)) in
  (forall h, h ∈ hits results -> dom (hit_source h) ⊆ list_to_set fields_to_output) ->
  exists submissions,
    get_submissions ES_search ev w
    = (inr {| statusCode := 200; location := None;
              rbody_of := JsonListing submissions (total_value results)
                            (total_debt results) |}, w) /\
    forall doc, doc ∈ submissions ->
      dom doc ⊆ list_to_set fields_to_output /\
      doc !! "email" = None /\ doc !! "emailClean" = None /\
      doc !! "tokenVerify" = None /\ doc !! "tokenDelete" = None.
Proof.
  intros results Hhits. rewrite Page.get_submissions_form. fold results.
  eexists. split; [done |]. intros doc Hdoc.
  assert (dom doc ⊆ list_to_set fields_to_output) as Hdom.
  { apply elem_of_app in Hdoc as [Hdoc | Hdoc].
    - apply Page.pinned_docs_elem in Hdoc as [source ->].
      apply Page.restrict_fields_dom.
    - apply list_elem_of_fmap in Hdoc as (h & -> & Hh). by apply Hhits. }
  split; [done |].
  split_and!; apply not_elem_of_dom; intros Hk%Hdom;
    apply elem_of_list_to_set in Hk; unfold fields_to_output in Hk;
    rewrite !elem_of_cons, elem_of_nil in Hk; by destruct Hk as [|[|[|[|[]]]]].
Qed.

(** X19. The include override looks a record up by its id and does not ask
    whether it is verified: a stored record that is named alone in [include]
    and is not in the page comes first in the listing, cut down to the output
    fields, also while it is still pending. *)
Theorem include_pins_any_stored_record ES_search ev w id d :
  let results :=
    ES_search (db w) (read_from (query_params ev)) (read_limit (query_params ev)) in
  query_params ev !! "include" = Some id ->
  id <> "" ->
  PyStr.has_char "," id = false ->
  db w !! id = Some d ->
  id ∉ page_ids results ->
  get_submissions ES_search ev w
  = (inr {| statusCode := 200; location := None;
            rbody_of := JsonListing
                          (restrict_fields d :: (hit_source <$> hits results))
                          (total_value results) (total_debt results) |}, w) /\
  restrict_fields d !! "verifiedDate" = d !! "verifiedDate".
Proof.
  intros results Hinc Hne Hcomma Hdb Hpage. split.
  - rewrite Page.get_submissions_form. fold results. unfold read_include.
    rewrite Hinc, (eqb_empty_false id Hne), (PyStrFacts.split_without _ _ Hcomma).
    simpl take. rewrite Listing.pinned_ids_take; [| |by eauto].
    + unfold pinned_ids, pinned_docs. simpl. by rewrite Hdb.
    + by rewrite elem_of_list_to_set.
  - by rewrite Listing.restrict_fields_lookup.
Qed.

(** X20. Whatever the request, the listing is the page of the search with at
    most three entries put in front of it. *)
Theorem listing_adds_at_most_three ES_search ev w :
  let results :=
    ES_search (db w) (read_from (query_params ev)) (read_limit (query_params ev)) in
  exists front,
    (length front <= 3)%nat /\
    get_submissions ES_search ev w
    = (inr {| statusCode := 200; location := None;
              rbody_of := JsonListing (front ++ (hit_source <$> hits results))
                            (total_value results) (total_debt results) |}, w).
Proof.
  intros results. rewrite Page.get_submissions_form. fold results.
  eexists. split; [|done].
  etrans; [apply Page.pinned_docs_length |].
  destruct (read_include (query_params ev)) as [ids|] eqn:Hinc; [|simpl; lia].
  etrans; [apply Page.pinned_ids_length |]. by apply (Page.read_include_length _ _ Hinc).
Qed.

(** ** The normal form of an address *)

(** X21. Every result of [clean_email] has the form [local@domain] with
    exactly one ['@']: neither part contains one, the local part has no dot
    and no plus sign, and the whole is in lower case. *)
Theorem clean_email_shape e r :
  clean_email e = inr r ->
  exists l d,
    r = l +:+ "@" +:+ d /\
    PyStr.has_char "@" l = false /\
    PyStr.has_char "." l = false /\
    PyStr.has_char "+" l = false /\
    PyStr.has_char "@" d = false /\
    PyStr.lower r = r.
Proof.
  unfold clean_email. intros He.
  pose proof (PyStrFacts.split_parts "@" (PyStr.lower e)) as Hat.
  pose proof (PyStrFacts.split_All _ "@" _ (PyStrFacts.lower_All e)) as Hlow.
  destruct (PyStr.split "@" (PyStr.lower e)) as [|p0 [|p1 ps]]; try done.
  injection He as <-.
  inversion_clear Hat as [|? ? Hat0 Hat']. inversion_clear Hat' as [|? ? Hat1 _].
  inversion_clear Hlow as [|? ? Hlow0 Hlow']. inversion_clear Hlow' as [|? ? Hlow1 _].
  exists (PyStr.first_part "+" (PyStr.remove "." p0)), p1. split_and!.
  - done.
  - by apply PyStrFacts.has_char_false, PyStrFacts.first_part_All, PyStrFacts.remove_All.
  - apply PyStrFacts.has_char_false, PyStrFacts.first_part_All, PyStrFacts.remove_sep.
  - apply PyStrFacts.has_char_false, PyStrFacts.first_part_sep.
  - by apply PyStrFacts.has_char_false.
  - apply PyStrFacts.lower_fixed, PyStrFacts.All_app.
    + by apply PyStrFacts.first_part_All, PyStrFacts.remove_All.
    + by split.
Qed.

(** X22. On an address [local@domain] with a single ['@'] the result is the
    lower-cased local part without its dots, cut at its first plus sign,
    then ['@'] and the lower-cased domain: dots and plus signs of the domain
    are kept. *)
Theorem clean_email_closed_form l d :
  PyStr.has_char "@" l = false ->
  PyStr.has_char "@" d = false ->
  clean_email (l +:+ "@" +:+ d)
  = inr (PyStr.first_part "+" (PyStr.remove "." (PyStr.lower l)) +:+ "@" +:+ PyStr.lower d).
Proof.
  intros Hl Hd. change ("@" +:+ d) with (String "@" d).
  rewrite CleanEmail.clean_email_at by done.
  rewrite (PyStrFacts.first_part_without "@"); [done |].
  rewrite CleanEmail.has_char_lower; [done | set_solver].
Qed.

(** ** Instances of the further properties *)

Module SampleFacts.

Lemma empty_has_no_match (v : option val) id d :
  db Sample.empty !! id = Some d -> d !! "emailClean" <> v.
Proof. intros Hd. simpl in Hd. by rewrite lookup_empty in Hd. Qed.

Lemma pending_unique : unique_emailClean (db Sample.pending).
Proof.
  apply (Creation.post_submission_unique Sample.env1
           (Sample.create_request Sample.jane) Sample.empty).
  intros i j di dj v Hi. simpl in Hi. by rewrite lookup_empty in Hi.
Qed.

Lemma search_projects d from_ size h :
  h ∈ hits (Sample.search d from_ size) ->
  dom (hit_source h) ⊆ list_to_set fields_to_output.
Proof.
  unfold Sample.search. simpl. intros (kv & -> & _)%list_elem_of_fmap. simpl.
  apply Page.restrict_fields_dom.
Qed.

End SampleFacts.

Lemma record_built_exactly_witness :
  exists record, create_submission_record Sample.env1 Sample.jane = inr record.
Proof.
  apply (proj2 (record_built_exactly Sample.env1 Sample.jane)).
  exists "Jane Doe", "Jane.Doe+test@Example.com". split_and!; compute_done.
Defined.

Lemma record_fields_witness :
  dom (Sample.record_of Sample.env1 Sample.jane) = list_to_set record_keys.
Proof.
  refine (proj1 (record_fields Sample.env1 Sample.jane _ _)). compute_done.
Defined.

Lemma first_name_is_first_word_witness :
  exists first,
    Sample.record_of Sample.env1 Sample.jane !! "firstName" = Some (VStr first) /\
    PyStr.has_char " " first = false /\
    ("Jane Doe" = first \/ exists rest, "Jane Doe" = first +:+ " " +:+ rest) /\
    (forall rest, "Jane Doe" = String " " rest -> first = "").
Proof.
  refine (first_name_is_first_word Sample.env1 Sample.jane _ "Jane Doe" _ _);
    compute_done.
Defined.

Lemma creation_faults_write_nothing_witness :
  post_submission Sample.env1 (Sample.create_request ∅) Sample.empty
  = (inl KeyError, Sample.empty).
Proof.
  refine (proj1 (proj1 (proj2 (creation_faults_write_nothing Sample.env1
            (Sample.create_request ∅) Sample.empty)) ∅ "name" _ _ _ _)).
  - reflexivity.
  - compute_done.
  - reflexivity.
  - intros v Hv. by rewrite lookup_empty in Hv.
Defined.

Lemma pending_creation_stores_and_mails_witness :
  (post_submission Sample.env1 (Sample.create_request Sample.jane) Sample.empty).1
  = inr {| statusCode := 200; location := None; rbody_of := JsonId "id1" |}.
Proof.
  destruct (pending_creation_stores_and_mails Sample.env1
              (Sample.create_request Sample.jane) Sample.empty Sample.jane
              (Sample.record_of Sample.env1 Sample.jane)
              eq_refl ltac:(compute_done) (SampleFacts.empty_has_no_match _))
    as (to & tv & td & _ & _ & _ & ->).
  reflexivity.
Defined.

Lemma mail_link_shape_witness :
  action_url (get_api_url (Sample.create_request Sample.jane)) "id1" "verify" "Zm9vYmFy"
  = "https://api.example.com/dev/submissions/id1/verify?token=Zm9vYmFy".
Proof.
  refine (mail_link_shape (Sample.create_request Sample.jane) "id1" "verify"
            "Zm9vYmFy" _ _); [discriminate | reflexivity].
Defined.

Lemma mailed_links_work_witness :
  db (post_submission Sample.env1 (Sample.create_request Sample.jane) Sample.empty).2
    !! "id1"
  = Some (Sample.record_of Sample.env1 Sample.jane).
Proof.
  refine (proj1 (mailed_links_work "https://ui.example" Sample.env1 Sample.env2
                   (Sample.create_request Sample.jane)
                   (Sample.token_request "id1" "Zm9vYmFy")
                   (Sample.token_request "id1" "cXV4eno")
                   Sample.empty Sample.jane _ "Zm9vYmFy" "cXV4eno"
                   eq_refl _ (SampleFacts.empty_has_no_match _) _ _ _ _));
    first [ by apply carries_token_request | compute_done ].
Defined.

Lemma same_address_twice_witness :
  post_submission Sample.env2 (Sample.create_request Sample.jane_again) Sample.pending
  = (inr (respond 409
            "Your story has already been submitted. Please check your email :)"),
     Sample.pending).
Proof.
  refine (same_address_twice Sample.env1 Sample.env2
            (Sample.create_request Sample.jane)
            (Sample.create_request Sample.jane_again) Sample.empty
            Sample.jane Sample.jane_again
            (Sample.record_of Sample.env1 Sample.jane)
            (Sample.record_of Sample.env2 Sample.jane_again)
            "Jane.Doe+test@Example.com" "janedoe@example.com"
            eq_refl _ eq_refl _ _ _ _); compute_done.
Defined.

Lemma delete_frees_address_witness :
  (post_submission Sample.env2 (Sample.create_request Sample.jane_again)
     (delete_submission (Sample.token_request "id1" "cXV4eno") Sample.pending).2).1
  = inr {| statusCode := 200; location := None; rbody_of := JsonId "id2" |}.
Proof.
  refine (proj1 (proj2 (delete_frees_address Sample.env2
            (Sample.create_request Sample.jane_again)
            (Sample.token_request "id1" "cXV4eno") Sample.pending "id1" "cXV4eno"
            Sample.jane_record Sample.jane_again
            (Sample.record_of Sample.env2 Sample.jane_again)
            SampleFacts.pending_unique _ _ _ eq_refl _ _)));
    first [ by apply carries_token_request | compute_done ].
Defined.

Lemma creation_touches_only_new_id_witness :
  db (post_submission Sample.env2 (Sample.create_request Sample.bob) Sample.pending).2
    !! "id1"
  = db Sample.pending !! "id1".
Proof.
  refine (proj1 (proj1 (creation_touches_only_new_id Sample.env2
            (Sample.create_request Sample.bob) Sample.pending) "id1" _)).
  discriminate.
Defined.

Lemma request_validation_witness :
  verify_submission "https://ui.example" Sample.env2
    (Sample.token_request "" "Zm9vYmFy") Sample.pending
  = (inr (respond 400 "Submission id missing"), Sample.pending).
Proof.
  refine (proj1 (proj1 (proj2 (proj2 (request_validation "https://ui.example"
            Sample.env2 (Sample.token_request "" "Zm9vYmFy") Sample.pending)))
            {["submissionId" := ""]} eq_refl _)).
  compute_done.
Defined.

Lemma unknown_id_not_found_witness :
  verify_submission "https://ui.example" Sample.env2
    (Sample.token_request "id9" "Zm9vYmFy") Sample.pending
  = (inr (respond 404 "Story not found"), Sample.pending).
Proof.
  refine (proj1 (unknown_id_not_found "https://ui.example" Sample.env2
            (Sample.token_request "id9" "Zm9vYmFy") Sample.pending
            "id9" "Zm9vYmFy" _ _));
    first [ by apply carries_token_request | compute_done ].
Defined.

Lemma pre_verified_is_verified_witness :
  exists d,
    db Sample.imported !! "id2" = Some d /\
    d !! "tokenVerify" = Some VNone /\
    d !! "createdDate" = Some (VStr "2020-04-02T08:30:00") /\
    d !! "verifiedDate" = Some (VStr "2020-04-02T08:30:02") /\
    forall k, k <> "tokenVerify" -> k <> "verifiedDate" ->
      d !! k = Sample.record_of Sample.env2 Sample.bob !! k.
Proof.
  refine (proj1 (proj2 (pre_verified_is_verified "https://ui.example"
            Sample.env2 Sample.env3
            (Sample.create_request Sample.bob)
            (Sample.token_request "id2" "guess")
            (Sample.token_request "id2" "ZGVs_ZXRl")
            Sample.pending Sample.bob (Sample.record_of Sample.env2 Sample.bob)
            "guess" "ZGVs_ZXRl" eq_refl _ _ _ _)));
    first [ by apply carries_token_request | compute_done ].
Defined.

Lemma verify_and_delete_in_either_order_witness :
  verify_submission "https://ui.example" Sample.env2
    (Sample.token_request "id1" "Zm9vYmFy")
    (delete_submission (Sample.token_request "id1" "cXV4eno") Sample.pending).2
  = (inr (respond 404 "Story not found"),
     with_db Sample.pending (delete "id1" (db Sample.pending))).
Proof.
  refine (proj2 (verify_and_delete_in_either_order "https://ui.example" Sample.env2
            (Sample.token_request "id1" "Zm9vYmFy")
            (Sample.token_request "id1" "cXV4eno")
            Sample.pending "id1" "Zm9vYmFy" "cXV4eno" Sample.jane_record _ _ _ _ _));
    first [ by apply carries_token_request | compute_done ].
Defined.

Lemma completed_action_is_idempotent_witness :
  verify_submission "https://ui.example" Sample.env3
    (Sample.token_request "id1" "guess") Sample.verified
  = (inr (redirect 302 ("https://ui.example" +:+ "?verified=" +:+ "id1")
            "Your story has already been verified! Thank you :)"), Sample.verified).
Proof.
  refine (proj1 (completed_action_is_idempotent "https://ui.example" Sample.env3
            (Sample.token_request "id1" "guess") Sample.verified "id1" "guess"
            (default ∅ (db Sample.verified !! "id1")) VNone _ _ _) _);
    first [ by apply carries_token_request | compute_done ].
Defined.

Lemma verified_record_is_final_witness :
  db (verify_submission "https://ui.example" Sample.env3
        (Sample.token_request "id1" "Zm9vYmFy") Sample.verified).2 !! "id1"
  = Some (default ∅ (db Sample.verified !! "id1")).
Proof.
  refine (proj1 (verified_record_is_final "https://ui.example" Sample.env3
            (Sample.token_request "id1" "Zm9vYmFy") Sample.verified "id1"
            (default ∅ (db Sample.verified !! "id1")) _) _); compute_done.
Defined.

Lemma token_actions_keep_emailClean_unique_witness :
  unique_emailClean
    (db (delete_submission (Sample.token_request "id1" "cXV4eno") Sample.pending).2).
Proof.
  exact (proj2 (token_actions_keep_emailClean_unique "https://ui.example" Sample.env2
                  (Sample.token_request "id1" "cXV4eno") Sample.pending
                  SampleFacts.pending_unique)).
Defined.

Lemma listing_is_the_page_witness :
  get_submissions Sample.search (Sample.list_request ∅) Sample.verified
  = (inr {| statusCode := 200; location := None;
            rbody_of :=
              JsonListing
                (hit_source <$> hits (Sample.search (db Sample.verified)
                                        (read_from ∅) (read_limit ∅)))
                (total_value (Sample.search (db Sample.verified)
                                (read_from ∅) (read_limit ∅)))
                (total_debt (Sample.search (db Sample.verified)
                               (read_from ∅) (read_limit ∅))) |},
     Sample.verified).
Proof.
  refine (listing_is_the_page Sample.search (Sample.list_request ∅) Sample.verified _).
  left. reflexivity.
Defined.

Lemma listing_shows_only_output_fields_witness :
  exists submissions count debt,
    get_submissions Sample.search (Sample.list_request {["include" := "id1"]})
      Sample.imported
    = (inr {| statusCode := 200; location := None;
              rbody_of := JsonListing submissions count debt |}, Sample.imported) /\
    forall doc, doc ∈ submissions -> doc !! "tokenDelete" = None.
Proof.
  destruct (listing_shows_only_output_fields Sample.search
              (Sample.list_request {["include" := "id1"]}) Sample.imported
              (SampleFacts.search_projects _ _ _))
    as (submissions & Hget & Hdocs).
  eexists submissions, _, _. split; [exact Hget |].
  intros doc Hdoc. by apply Hdocs.
Defined.

Lemma include_pins_any_stored_record_witness :
  restrict_fields Sample.jane_record !! "verifiedDate" = None.
Proof.
  etrans;
    [ refine (proj2 (include_pins_any_stored_record Sample.search
                       (Sample.list_request {["include" := "id1"]}) Sample.imported
                       "id1" Sample.jane_record _ _ _ _ _));
      first [ discriminate | compute_done ]
    | compute_done ].
Defined.

Lemma clean_email_shape_witness :
  exists l d,
    "janedoe@example.com" = l +:+ "@" +:+ d /\
    PyStr.has_char "@" l = false /\
    PyStr.has_char "." l = false /\
    PyStr.has_char "+" l = false /\
    PyStr.has_char "@" d = false /\
    PyStr.lower "janedoe@example.com" = "janedoe@example.com".
Proof.
  refine (clean_email_shape "Jane.Doe+test@Example.com" "janedoe@example.com" _).
  reflexivity.
Defined.

Lemma clean_email_closed_form_witness :
  clean_email "A.B+x@Mail.D.com" = inr "ab@mail.d.com".
Proof.
  refine (clean_email_closed_form "A.B+x" "Mail.D.com" _ _); reflexivity.
Defined.
